(** * Uplevel portal: chat store, agent store and the chat send operation

    A shallow embedding of
      - [src/portal/frontend/src/store/chat-store.ts], the zustand chat store
        and its persistence,
      - the agent store ([agent-store], exported by [store/index.ts]),
      - [src/portal/frontend/src/components/chat/chat-interface.tsx]
        ([handleSendMessage]),
    together with the part of the JavaScript semantics these files rely on
    (truthiness and [||], property reads on parsed JSON, template literals,
    [Date.now], [JSON.stringify] of dates), and a model of the orchestrator's
    intent classifier taken from the specification.

    Conventions.  Strings are byte strings (UTF-8).  JSON numbers are
    restricted to integer literals, each standing for the double it parses
    to.  A zustand [set] is a pure update of the store
    record; [Date.now()] and [new Date()] read an explicit clock; an action
    is a state-passing function that also returns its completion (normal or
    thrown). *)

From Stdlib Require Import ZArith List String Ascii Bool Lia.
From Stdlib Require Import DecimalString DecimalPos DecimalZ.
From stdpp Require Import base option list.

Set Warnings "-register-all".

Local Open Scope string_scope.
Local Open Scope Z_scope.

(** ** JavaScript values that cross the wire *)

Module JS.

(** The result of [response.json()]: a parsed JSON document.  An object keeps
    its members in source order; a member read takes the first binding of the
    key (parsed objects have one binding per key). *)
Inductive json : Type :=
  | JNull
  | JBool (b : bool)
  | JNum (n : Z)
  | JStr (s : string)
  | JArr (items : list json)
  | JObj (members : list (string * json)).

(** What a [throw] carries: an [Error] instance with its message, or some
    other value ([error instanceof Error] is false for it). *)
Inductive Thrown : Type :=
  | ErrorObj (message : string)
  | NotAnError.

(** Completion of an expression that may throw. *)
Inductive Completion (A : Type) : Type :=
  | Normal (a : A)
  | Throw (e : Thrown).
Arguments Normal {A} a.
Arguments Throw {A} e.

Definition bindC {A B} (c : Completion A) (k : A -> Completion B) : Completion B :=
  match c with
  | Normal a => k a
  | Throw e => Throw e
  end.

Notation "'letC' x ':=' c 'in' k" := (bindC c (fun x => k))
  (at level 10, x name, c at level 100, k at level 200).

Fixpoint mapC {A B} (f : A -> Completion B) (l : list A) : Completion (list B) :=
  match l with
  | [] => Normal []
  | x :: r => letC y := f x in letC ys := mapC f r in Normal (y :: ys)
  end.

(** The decimal digits of an integer, as a template literal prints a small
    count or a time value. *)
Definition showZ (n : Z) : string := NilZero.string_of_int (Z.to_int n).

(** Own-property lookup in a parsed object. *)
Fixpoint assoc (k : string) (members : list (string * json)) : option json :=
  match members with
  | [] => None
  | (k', v) :: r => if String.eqb k k' then Some v else assoc k r
  end.

(** [ToBoolean]: [null], [false], [0] and the empty string are falsy (and so
    is [undefined], which is [None] at the use sites); arrays and objects are
    truthy. *)
Definition truthy (v : json) : bool :=
  match v with
  | JNull => false
  | JBool b => b
  | JNum n => negb (n =? 0)
  | JStr s => negb (String.eqb s "")
  | JArr _ | JObj _ => true
  end.

Definition truthy_opt (o : option json) : bool :=
  match o with
  | Some v => truthy v
  | None => false
  end.

(** [data[key]] / [data.key] for one of the keys the component reads
    ([answer], [response], [query_type], [agents_involved]); none of them is
    a built-in property of strings, numbers, booleans or arrays.  Reading a
    property of [null] throws a TypeError. *)
Definition getProp (data : json) (key : string) : Completion (option json) :=
  match data with
  | JNull => Throw (ErrorObj ("Cannot read properties of null (reading '" ++ key ++ "')"))
  | JObj members => Normal (assoc key members)
  | _ => Normal None
  end.

(** [Array.prototype.join]. *)
Fixpoint join (sep : string) (parts : list string) : string :=
  match parts with
  | [] => ""
  | [p] => p
  | p :: r => p ++ sep ++ join sep r
  end.

(** The Number an integer literal of the reply parses to: the nearest
    double, ties to the even mantissa; [None] is [Infinity].  The argument is
    not negative. *)
Definition nearest_double (a : Z) : option Z :=
  if a <? 2 ^ 53 then Some a
  else
    let e := Z.log2 a - 52 in
    let q := a / 2 ^ e in
    let r := a mod 2 ^ e in
    let half := 2 ^ (e - 1) in
    let q' := if r <? half then q
              else if half <? r then q + 1
              else if Z.even q then q else q + 1 in
    let v := q' * 2 ^ e in
    if 2 ^ 1024 <=? v then None else Some v.

(** The integer [c] has the Number value [v]. *)
Definition has_value (v c : Z) : bool :=
  match nearest_double c with
  | Some x => x =? v
  | None => false
  end.

(** The decimal with the fewest significant digits whose Number value is
    [v]: among the multiples of [10^p] next to [v], for the largest [p] that
    has one, the closest to [v] (the even one on a tie). *)
Fixpoint shortest_from (p : nat) (v : Z) : Z :=
  let unit := 10 ^ Z.of_nat p in
  let c1 := (v / unit) * unit in
  let c2 := c1 + unit in
  let pick :=
    if (has_value v c1 && has_value v c2)%bool then
      (if v - c1 <? c2 - v then Some c1
       else if c2 - v <? v - c1 then Some c2
       else if Z.even (c1 / unit) then Some c1 else Some c2)
    else if has_value v c1 then Some c1
    else if has_value v c2 then Some c2
    else None in
  match pick, p with
  | Some c, _ => c
  | None, O => v
  | None, S p' => shortest_from p' v
  end.

Fixpoint strip_zeros (s : string) : string :=
  match s with
  | EmptyString => EmptyString
  | String c r =>
      let r' := strip_zeros r in
      if (Ascii.eqb c "0" && String.eqb r' "")%bool then EmptyString else String c r'
  end.

(** [Number::toString] of a non-negative integer literal: all digits up to
    21 of them, the exponent form beyond. *)
Definition number_text (a : Z) : string :=
  match nearest_double a with
  | None => "Infinity"
  | Some v =>
      let digits := showZ (shortest_from (String.length (showZ v)) v) in
      let n := String.length digits in
      if Nat.leb n 21 then digits
      else
        match strip_zeros digits with
        | EmptyString => digits
        | String d rest =>
            String d (if String.eqb rest "" then "" else "." ++ rest)
            ++ "e+" ++ showZ (Z.of_nat n - 1)
        end
  end.

Definition Number_toString (n : Z) : string :=
  if n <? 0 then "-" ++ number_text (- n) else number_text n.

(** [ToString] as used by a template literal.  A parsed object that carries
    an own [toString] member (necessarily not callable) has no primitive
    value; every other object prints as [[object Object]].  Arrays print
    through [join(",")], where [null] elements print as the empty string. *)
Fixpoint ToString (v : json) : Completion string :=
  match v with
  | JNull => Normal "null"
  | JBool true => Normal "true"
  | JBool false => Normal "false"
  | JNum n => Normal (Number_toString n)
  | JStr s => Normal s
  | JArr items =>
      letC parts :=
        (fix elems (l : list json) : Completion (list string) :=
           match l with
           | [] => Normal []
           | x :: r =>
               letC s := match x with
                         | JNull => Normal ""
                         | _ => ToString x
                         end in
               letC ss := elems r in
               Normal (s :: ss)
           end) items in
      Normal (join "," parts)
  | JObj members =>
      match assoc "toString" members with
      | Some _ => Throw (ErrorObj "Cannot convert object to primitive value")
      | None => Normal "[object Object]"
      end
  end.

(** [s.replace('_', ' ')] with a string pattern: only the first occurrence. *)
Fixpoint replace_first (from to : ascii) (s : string) : string :=
  match s with
  | EmptyString => EmptyString
  | String c r =>
      if Ascii.eqb c from then String to r else String c (replace_first from to r)
  end.

(** White space as [String.prototype.trim] strips it (the WhiteSpace and
    LineTerminator code points), in its UTF-8 encoding.  One byte: U+0009 to
    U+000D and U+0020. *)
Definition is_space (c : ascii) : bool :=
  let n := nat_of_ascii c in
  (Nat.eqb n 32 || (Nat.leb 9 n && Nat.leb n 13))%bool.

(** Two bytes: U+00A0. *)
Definition is_space2 (c1 c2 : ascii) : bool :=
  (Nat.eqb (nat_of_ascii c1) 194 && Nat.eqb (nat_of_ascii c2) 160)%bool.

(** Three bytes: U+1680, U+2000 to U+200A, U+2028, U+2029, U+202F, U+205F,
    U+3000 and U+FEFF. *)
Definition is_space3 (c1 c2 c3 : ascii) : bool :=
  let a := nat_of_ascii c1 in
  let b := nat_of_ascii c2 in
  let c := nat_of_ascii c3 in
  ((Nat.eqb a 225 && Nat.eqb b 154 && Nat.eqb c 128)
   || (Nat.eqb a 226 && Nat.eqb b 128
       && ((Nat.leb 128 c && Nat.leb c 138)
           || Nat.eqb c 168 || Nat.eqb c 169 || Nat.eqb c 175))
   || (Nat.eqb a 226 && Nat.eqb b 129 && Nat.eqb c 159)
   || (Nat.eqb a 227 && Nat.eqb b 128 && Nat.eqb c 128)
   || (Nat.eqb a 239 && Nat.eqb b 187 && Nat.eqb c 191))%bool.

(** [!s.trim()]: the string is empty once trimmed, that is, it is made of
    white space only. *)
Fixpoint blank (s : string) : bool :=
  match s with
  | EmptyString => true
  | String c1 r1 =>
      if is_space c1 then blank r1
      else
        match r1 with
        | EmptyString => false
        | String c2 r2 =>
            if is_space2 c1 c2 then blank r2
            else
              match r2 with
              | EmptyString => false
              | String c3 r3 => if is_space3 c1 c2 c3 then blank r3 else false
              end
        end
  end.

End JS.
Export JS.

(** ** Dates *)

Module Dates.

(** Left padding with zeros, as [padStart(width, "0")] on a decimal. *)
Fixpoint zeros (k : nat) : string :=
  match k with
  | O => ""
  | S k' => String "0" (zeros k')
  end.

Definition pad (width : nat) (n : Z) : string :=
  let d := showZ n in
  zeros (width - String.length d)%nat ++ d.

(** Proleptic Gregorian date of a day number counted from 1970-01-01. *)
Definition civil_from_days (days : Z) : Z * Z * Z :=
  let z := days + 719468 in
  let era := z / 146097 in
  let doe := z - era * 146097 in
  let yoe := (doe - doe / 1460 + doe / 36524 - doe / 146096) / 365 in
  let y := yoe + era * 400 in
  let doy := doe - (365 * yoe + yoe / 4 - yoe / 100) in
  let mp := (5 * doy + 2) / 153 in
  let d := doy - (153 * mp + 2) / 5 + 1 in
  let m := if mp <? 10 then mp + 3 else mp - 9 in
  (if m <=? 2 then y + 1 else y, m, d).

Definition year_text (y : Z) : string :=
  if (0 <=? y) && (y <=? 9999) then pad 4 y
  else if y <? 0 then "-" ++ pad 6 (- y)
  else "+" ++ pad 6 y.

(** [Date.prototype.toISOString] of a valid time value (milliseconds since
    the epoch, UTC). *)
Definition toISOString (ms : Z) : string :=
  let '(y, m, d) := civil_from_days (ms / 86400000) in
  let r := ms mod 86400000 in
  year_text y ++ "-" ++ pad 2 m ++ "-" ++ pad 2 d ++ "T" ++
  pad 2 (r / 3600000) ++ ":" ++ pad 2 (r / 60000 mod 60) ++ ":" ++
  pad 2 (r / 1000 mod 60) ++ "." ++ pad 3 (r mod 1000) ++ "Z".

(** The run-time content of a slot typed [Date]: a [Date] object holding a
    time value, or, after the store has been read back from storage, the
    string [JSON.stringify] wrote for it. *)
Inductive DateSlot : Type :=
  | DateObj (ms : Z)
  | DateText (iso : string).

End Dates.
Export Dates.

(** ** The agent store (agent-store) *)

Module AgentStore.

Inductive AgentStatus : Type := online | offline | busy.

Inductive AgentType : Type :=
  | financial | sales_marketing | research | general | orchestrator.

Record Agent : Type := mkAgent {
  a_id : string;
  a_name : string;
  a_description : string;
  a_capabilities : list string;
  a_status : AgentStatus;
  a_avatar : option string;
  a_endpoint : string;
  a_type : AgentType
}.

Record AgentStore : Type := mkAgentStore {
  agents : list Agent;
  selectedAgent : option Agent
}.

(** [{ ...agent, status }] *)
Definition with_status (agent : Agent) (status : AgentStatus) : Agent :=
  {| a_id := a_id agent;
     a_name := a_name agent;
     a_description := a_description agent;
     a_capabilities := a_capabilities agent;
     a_status := status;
     a_avatar := a_avatar agent;
     a_endpoint := a_endpoint agent;
     a_type := a_type agent |}.

(** [process.env.X || fallback]: an unset or empty variable is falsy. *)
Definition env_or (var : option string) (fallback : string) : string :=
  match var with
  | Some v => if String.eqb v "" then fallback else v
  | None => fallback
  end.

Record ProcessEnv : Type := mkProcessEnv {
  ORCHESTRATOR_API_URL : option string;
  FINANCIAL_AGENT_API_URL : option string;
  SALES_AGENT_API_URL : option string
}.

Definition defaultAgents (env : ProcessEnv) : list Agent :=
  [ {| a_id := "central-orchestrator";
       a_name := "AI Orchestrator (Multi-Agent)";
       a_description :=
         "Intelligent coordinator that combines insights from multiple specialized agents";
       a_capabilities :=
         [ "Multi-Agent Coordination"; "Collaborative Analysis";
           "Cross-Domain Insights"; "Complex Query Processing";
           "Integrated Financial + Sales Intelligence";
           "Strategic Recommendations"; "Workflow Management" ];
       a_status := online;
       a_avatar := None;
       a_endpoint := env_or (ORCHESTRATOR_API_URL env) "http://localhost:8001";
       a_type := orchestrator |};
    {| a_id := "financial-intelligence";
       a_name := "Financial Intelligence Agent";
       a_description :=
         "Advanced financial analysis, P&L statements, and business insights";
       a_capabilities :=
         [ "Financial Analysis"; "P&L Statement Generation";
           "Business Intelligence"; "Market Research"; "Risk Assessment" ];
       a_status := online;
       a_avatar := None;
       a_endpoint :=
         env_or (FINANCIAL_AGENT_API_URL env)
           "https://uplevel-financial-agent-834012950450.us-central1.run.app";
       a_type := financial |};
    {| a_id := "sales-marketing";
       a_name := "Sales & Marketing Intelligence Agent";
       a_description :=
         "Sales pipeline management, lead generation, and marketing analytics";
       a_capabilities :=
         [ "Lead Management"; "Sales Pipeline Analysis"; "Campaign Performance";
           "Customer Segmentation"; "Revenue Forecasting"; "Contract Management";
           "Payment Tracking" ];
       a_status := online;
       a_avatar := None;
       a_endpoint := env_or (SALES_AGENT_API_URL env) "http://localhost:8003";
       a_type := sales_marketing |};
    {| a_id := "research-specialist";
       a_name := "Research Specialist";
       a_description :=
         "In-depth research and data analysis across various domains";
       a_capabilities :=
         [ "Market Research"; "Competitive Analysis"; "Industry Reports";
           "Data Mining" ];
       a_status := offline;
       a_avatar := None;
       a_endpoint := "";
       a_type := research |} ].

Definition initialAgentStore (env : ProcessEnv) : AgentStore :=
  {| agents := defaultAgents env;
     selectedAgent := head (defaultAgents env) |}.

Definition setAgents (new_agents : list Agent) (state : AgentStore) : AgentStore :=
  {| agents := new_agents; selectedAgent := selectedAgent state |}.

Definition selectAgent (agentId : string) (state : AgentStore) : AgentStore :=
  match List.find (fun a => String.eqb (a_id a) agentId) (agents state) with
  | Some agent => {| agents := agents state; selectedAgent := Some agent |}
  | None => state
  end.

Definition updateAgentStatus (agentId : string) (status : AgentStatus)
    (state : AgentStore) : AgentStore :=
  {| agents :=
       map (fun agent =>
              if String.eqb (a_id agent) agentId
              then with_status agent status else agent)
           (agents state);
     selectedAgent :=
       match selectedAgent state with
       | Some sel =>
           if String.eqb (a_id sel) agentId
           then Some (with_status sel status) else Some sel
       | None => None
       end |}.

End AgentStore.
Export AgentStore.

(** ** The chat store (chat-store.ts) *)

Module ChatStore.

Inductive Role : Type := user | assistant.

(** [metadata]: every member is optional.  [error] is declared a string but
    the send operation stores [true] in it, so it holds any JSON value;
    [type] likewise receives ['orchestrator'], outside its declared union.
    A member set to [undefined] is the same as an absent one. *)
Record Metadata : Type := mkMetadata {
  md_type : option string;
  md_loading : option bool;
  md_error : option json;
  md_orchestratorData : option json
}.

Record ChatMessage : Type := mkChatMessage {
  m_id : string;
  m_content : json;
  m_role : Role;
  m_timestamp : DateSlot;
  m_agentId : option string;
  m_metadata : option Metadata
}.

Record ChatSession : Type := mkChatSession {
  s_id : string;
  s_title : string;
  s_messages : list ChatMessage;
  s_createdAt : DateSlot;
  s_updatedAt : DateSlot;
  s_agentId : string
}.

Record ChatStore : Type := mkChatStore {
  currentSession : option ChatSession;
  sessions : list ChatSession;
  isLoading : bool
}.

(** [Omit<ChatMessage, 'id' | 'timestamp'>] *)
Record MessageData : Type := mkMessageData {
  d_content : json;
  d_role : Role;
  d_agentId : option string;
  d_metadata : option Metadata
}.

(** [Partial<ChatMessage>]: [None] is an absent member. *)
Record Updates : Type := mkUpdates {
  u_id : option string;
  u_content : option json;
  u_role : option Role;
  u_timestamp : option DateSlot;
  u_agentId : option (option string);
  u_metadata : option (option Metadata)
}.

(** [{ ...msg, ...updates }] *)
Definition spread (msg : ChatMessage) (updates : Updates) : ChatMessage :=
  {| m_id := default (m_id msg) (u_id updates);
     m_content := default (m_content msg) (u_content updates);
     m_role := default (m_role msg) (u_role updates);
     m_timestamp := default (m_timestamp msg) (u_timestamp updates);
     m_agentId := default (m_agentId msg) (u_agentId updates);
     m_metadata := default (m_metadata msg) (u_metadata updates) |}.

(** The state of the page: the two stores, the text typed in the input box
    (the component's [inputValue]), and what the actions read from the host:
    the clock behind [Date.now()] / [new Date()] (the reading returned by the
    k-th call) and the locale's date format. *)
Record World : Type := mkWorld {
  chat : ChatStore;
  agentStore : AgentStore;
  inputValue : string;
  clock : nat -> Z;
  elapsed : nat;
  localeDate : Z -> string
}.

(** Actions: state passing, with the completion of the action. *)
Definition St (A : Type) : Type := World -> Completion A * World.

Definition ret {A} (a : A) : St A := fun w => (Normal a, w).

Definition bindS {A B} (c : St A) (k : A -> St B) : St B :=
  fun w =>
    match c w with
    | (Normal a, w') => k a w'
    | (Throw e, w') => (Throw e, w')
    end.

Notation "'letS' x ':=' c 'in' k" := (bindS c (fun x => k))
  (at level 10, x name, c at level 100, k at level 200).

Definition lift {A} (c : Completion A) : St A := fun w => (c, w).

(** [try { body } catch (error) { handler } finally { fin }] *)
Definition tryCatchFinally {A} (body : St A) (handler : Thrown -> St A)
    (fin : St unit) : St A :=
  fun w =>
    let '(r, w1) :=
      match body w with
      | (Normal a, w1) => (Normal a, w1)
      | (Throw e, w1) => handler e w1
      end in
    match fin w1 with
    | (Normal _, w2) => (r, w2)
    | (Throw e', w2) => (Throw e', w2)
    end.

Definition exec {A} (c : St A) (w : World) : World := snd (c w).

Definition with_chat (w : World) (c : ChatStore) : World :=
  {| chat := c; agentStore := agentStore w; inputValue := inputValue w;
     clock := clock w; elapsed := elapsed w; localeDate := localeDate w |}.

(** [get()] *)
Definition get : St ChatStore := fun w => (Normal (chat w), w).

(** [set(state => ...)] *)
Definition set (f : ChatStore -> ChatStore) : St unit :=
  fun w => (Normal tt, with_chat w (f (chat w))).

(** [Date.now()]; [new Date()] holds the same reading. *)
Definition Date_now : St Z :=
  fun w => (Normal (clock w (elapsed w)),
            {| chat := chat w; agentStore := agentStore w;
               inputValue := inputValue w; clock := clock w;
               elapsed := S (elapsed w); localeDate := localeDate w |}).

Definition toLocaleDateString (ms : Z) : St string :=
  fun w => (Normal (localeDate w ms), w).

Definition initialChatStore : ChatStore :=
  {| currentSession := None; sessions := []; isLoading := false |}.

Definition createSession (agentId : string) : St unit :=
  letS t_id := Date_now in
  letS t_title := Date_now in
  letS day := toLocaleDateString t_title in
  letS t_created := Date_now in
  letS t_updated := Date_now in
  let newSession :=
    {| s_id := "session_" ++ showZ t_id;
       s_title := "New Chat - " ++ day;
       s_messages := [];
       s_createdAt := DateObj t_created;
       s_updatedAt := DateObj t_updated;
       s_agentId := agentId |} in
  set (fun state =>
         {| currentSession := Some newSession;
            sessions := newSession :: sessions state;
            isLoading := isLoading state |}).

Definition setCurrentSession (sessionId : string) : St unit :=
  letS state := get in
  match List.find (fun s => String.eqb (s_id s) sessionId) (sessions state) with
  | Some session =>
      set (fun state =>
             {| currentSession := Some session;
                sessions := sessions state;
                isLoading := isLoading state |})
  | None => ret tt
  end.

Definition addMessage (messageData : MessageData) : St unit :=
  letS state := get in
  match currentSession state with
  | None => ret tt
  | Some cur =>
      letS t_id := Date_now in
      letS t_stamp := Date_now in
      let newMessage :=
        {| m_id := "msg_" ++ showZ t_id;
           m_content := d_content messageData;
           m_role := d_role messageData;
           m_timestamp := DateObj t_stamp;
           m_agentId := d_agentId messageData;
           m_metadata := d_metadata messageData |} in
      letS t_updated := Date_now in
      let updatedSession :=
        {| s_id := s_id cur;
           s_title := s_title cur;
           s_messages := (s_messages cur ++ [newMessage])%list;
           s_createdAt := s_createdAt cur;
           s_updatedAt := DateObj t_updated;
           s_agentId := s_agentId cur |} in
      set (fun state =>
             {| currentSession := Some updatedSession;
                sessions :=
                  map (fun s => if String.eqb (s_id s) (s_id cur)
                                then updatedSession else s)
                      (sessions state);
                isLoading := isLoading state |})
  end.

Definition updateMessage (messageId : string) (updates : Updates) : St unit :=
  letS state := get in
  match currentSession state with
  | None => ret tt
  | Some cur =>
      letS t_updated := Date_now in
      let updatedSession :=
        {| s_id := s_id cur;
           s_title := s_title cur;
           s_messages :=
             map (fun msg => if String.eqb (m_id msg) messageId
                             then spread msg updates else msg)
                 (s_messages cur);
           s_createdAt := s_createdAt cur;
           s_updatedAt := DateObj t_updated;
           s_agentId := s_agentId cur |} in
      set (fun state =>
             {| currentSession := Some updatedSession;
                sessions :=
                  map (fun s => if String.eqb (s_id s) (s_id cur)
                                then updatedSession else s)
                      (sessions state);
                isLoading := isLoading state |})
  end.

Definition clearSessions : St unit :=
  set (fun state =>
         {| currentSession := None; sessions := [];
            isLoading := isLoading state |}).

Definition deleteSession (sessionId : string) : St unit :=
  set (fun state =>
         {| sessions :=
              List.filter (fun s => negb (String.eqb (s_id s) sessionId))
                          (sessions state);
            currentSession :=
              match currentSession state with
              | Some cur =>
                  if String.eqb (s_id cur) sessionId then None else Some cur
              | None => None
              end;
            isLoading := isLoading state |}).

Definition setLoading (loading : bool) : St unit :=
  set (fun state =>
         {| currentSession := currentSession state;
            sessions := sessions state;
            isLoading := loading |}).

End ChatStore.
Export ChatStore.

(** ** Persistence of the chat store ([persist] with [partialize]) *)

Module Persist.

(** The store is written with [JSON.stringify] and read back with
    [JSON.parse] (no reviver).  [Date.prototype.toJSON] writes a date as its
    ISO string, and the string is what comes back; a slot that already holds
    a string is written as that string. *)
Definition json_date (d : DateSlot) : DateSlot :=
  match d with
  | DateObj ms => DateText (toISOString ms)
  | DateText iso => DateText iso
  end.

Definition json_message (m : ChatMessage) : ChatMessage :=
  {| m_id := m_id m;
     m_content := m_content m;
     m_role := m_role m;
     m_timestamp := json_date (m_timestamp m);
     m_agentId := m_agentId m;
     m_metadata := m_metadata m |}.

Definition json_session (s : ChatSession) : ChatSession :=
  {| s_id := s_id s;
     s_title := s_title s;
     s_messages := map json_message (s_messages s);
     s_createdAt := json_date (s_createdAt s);
     s_updatedAt := json_date (s_updatedAt s);
     s_agentId := s_agentId s |}.

(** What [partialize] keeps, as it reads after a trip through storage. *)
Record Persisted : Type := mkPersisted {
  p_sessions : list ChatSession;
  p_currentSession : option ChatSession
}.

Definition partialize (state : ChatStore) : Persisted :=
  {| p_sessions := sessions state;
     p_currentSession := currentSession state |}.

(** Writing to storage and parsing the stored text. *)
Definition stored (p : Persisted) : Persisted :=
  {| p_sessions := map json_session (p_sessions p);
     p_currentSession := option_map json_session (p_currentSession p) |}.

(** Rehydration after a restart: the stored members are merged over the
    initial state. *)
Definition rehydrate (p : Persisted) : ChatStore :=
  {| currentSession := p_currentSession p;
     sessions := p_sessions p;
     isLoading := isLoading initialChatStore |}.

Definition reload (state : ChatStore) : ChatStore :=
  rehydrate (stored (partialize state)).

(** Reading a session by its id ([sessions.find(s => s.id === sessionId)]). *)
Definition readSession (sessionId : string) (state : ChatStore) : option ChatSession :=
  List.find (fun s => String.eqb (s_id s) sessionId) (sessions state).

End Persist.
Export Persist.

(** ** The send operation (chat-interface.tsx, [handleSendMessage]) *)

Module ChatInterface.

(** The body of an HTTP response as [response.json()] sees it. *)
Inductive Body : Type :=
  | BodyJson (data : json)
  | BodyInvalid (e : Thrown).

(** What [await fetch(...)] delivers. *)
Inductive FetchOutcome : Type :=
  | FetchRejected (e : Thrown)
  | FetchResponse (status : Z) (body : Body).

(** The network: the outcome of a POST of a JSON body to a URL. *)
Definition Network : Type := string -> json -> FetchOutcome.

(** [response.ok] *)
Definition response_ok (status : Z) : bool := (200 <=? status) && (status <=? 299).

Definition nl : string := String (ascii_of_nat 10) "".

Definition apology : string := "I apologize, but I couldn't generate a response.".

Definition is_orchestrator (t : AgentType) : bool :=
  match t with
  | orchestrator => true
  | _ => false
  end.

Definition loadingText (t : AgentType) : string :=
  if is_orchestrator t
  then "Coordinating with specialized agents to provide comprehensive insights..."
  else "Analyzing your request...".

Definition responseField (t : AgentType) : string :=
  if is_orchestrator t then "answer" else "response".

(** [currentSession.userId || 'frontend_user']: a session has no [userId]. *)
Definition requestBody (t : AgentType) (originalQuery sessionId : string) : json :=
  if is_orchestrator t
  then JObj [ ("query", JStr originalQuery);
              ("session_id", JStr sessionId);
              ("user_id", JStr "frontend_user");
              ("context", JObj []) ]
  else JObj [ ("query", JStr originalQuery);
              ("conversation_id", JStr sessionId) ].

(** One operand of a [||] chain: the value if it is truthy, else the rest. *)
Definition or_next (v : option json) (rest : Completion json) : Completion json :=
  match v with
  | Some x => if truthy x then Normal x else rest
  | None => rest
  end.

(** [data[responseField] || data.answer || data.response || "I apologize..."] *)
Definition responseContent (t : AgentType) (data : json) : Completion json :=
  letC v1 := getProp data (responseField t) in
  or_next v1 (
    letC v2 := getProp data "answer" in
    or_next v2 (
      letC v3 := getProp data "response" in
      or_next v3 (Normal (JStr apology)))).

(** The callback of [data.agents_involved.map]. *)
Definition agentName (agent : json) : Completion string :=
  match agent with
  | JStr s =>
      if String.eqb s "financial_intelligence" then Normal "Financial Intelligence"
      else if String.eqb s "sales_marketing" then Normal "Sales & Marketing"
      else Normal (replace_first "_" " " s)
  | JNull => Throw (ErrorObj "Cannot read properties of null (reading 'replace')")
  | _ => Throw (ErrorObj "agent.replace is not a function")
  end.

Definition enhancedContent (t : AgentType) (data content : json) : Completion json :=
  if is_orchestrator t then
    letC query_type := getProp data "query_type" in
    if truthy_opt query_type then
      letC agents_involved := getProp data "agents_involved" in
      if truthy_opt agents_involved then
        match agents_involved with
        | Some (JArr items) =>
            letC agentNames := mapC agentName items in
            letC shown := ToString content in
            letC kind := ToString (default JNull query_type) in
            Normal (JStr (shown ++ nl ++ nl ++ "---" ++ nl ++
                          "📊 **Query Type**: " ++ kind ++ nl ++
                          "🤖 **Agents Consulted**: " ++ join ", " agentNames))
        | _ => Throw (ErrorObj "data.agents_involved.map is not a function")
        end
      else Normal content
    else Normal content
  else Normal content.

Definition successUpdates (t : AgentType) (data enhanced : json) : Updates :=
  {| u_id := None;
     u_content := Some enhanced;
     u_role := None;
     u_timestamp := None;
     u_agentId := None;
     u_metadata :=
       Some (Some {| md_type := Some (if is_orchestrator t then "orchestrator" else "query");
                     md_loading := Some false;
                     md_error := None;
                     md_orchestratorData := if is_orchestrator t then Some data else None |}) |}.

Definition errorMessage (e : Thrown) : string :=
  match e with
  | ErrorObj message => message
  | NotAnError => "Unknown error"
  end.

Definition errorUpdates (e : Thrown) : Updates :=
  {| u_id := None;
     u_content :=
       Some (JStr ("I apologize, but I encountered an error while processing your request: "
                   ++ errorMessage e));
     u_role := None;
     u_timestamp := None;
     u_agentId := None;
     u_metadata :=
       Some (Some {| md_type := None;
                     md_loading := Some false;
                     md_error := Some (JBool true);
                     md_orchestratorData := None |}) |}.

(** [await fetch(...)], the status check and [await response.json()]. *)
Definition fetchData (net : Network) (agent : Agent) (body : json) : Completion json :=
  match net (a_endpoint agent ++ "/query") body with
  | FetchRejected e => Throw e
  | FetchResponse status b =>
      if response_ok status
      then match b with
           | BodyJson data => Normal data
           | BodyInvalid e => Throw e
           end
      else Throw (ErrorObj ("API Error: " ++ showZ status))
  end.

Definition setInputValue (v : string) : St unit :=
  fun w => (Normal tt,
            {| chat := chat w; agentStore := agentStore w; inputValue := v;
               clock := clock w; elapsed := elapsed w; localeDate := localeDate w |}).

(** The body of the [try] block. *)
Definition attempt (net : Network) (agent : Agent) (cur : ChatSession)
    (originalQuery loadingMessageId : string) : St unit :=
  let t := a_type agent in
  letS data := lift (fetchData net agent (requestBody t originalQuery (s_id cur))) in
  letS content := lift (responseContent t data) in
  letS enhanced := lift (enhancedContent t data content) in
  updateMessage loadingMessageId (successUpdates t data enhanced).

(** The component reads [currentSession] and [selectedAgent] as of its last
    render, which is the state of the stores when the operation starts; the
    operation runs without another action interleaved while it awaits. *)
Definition handleSendMessage (net : Network) : St unit :=
  fun w =>
    if blank (inputValue w) then (Normal tt, w)
    else
    match selectedAgent (agentStore w), currentSession (chat w) with
    | Some agent, Some cur =>
          (letS _ := addMessage {| d_content := JStr (inputValue w);
                                   d_role := user;
                                   d_agentId := Some (a_id agent);
                                   d_metadata := None |} in
           let originalQuery := inputValue w in
           letS _ := setInputValue "" in
           letS _ := setLoading true in
           letS t_loading := Date_now in
           let loadingMessageId := "msg_loading_" ++ showZ t_loading in
           letS _ := addMessage {| d_content := JStr (loadingText (a_type agent));
                                   d_role := assistant;
                                   d_agentId := Some (a_id agent);
                                   d_metadata :=
                                     Some {| md_type := None;
                                             md_loading := Some true;
                                             md_error := None;
                                             md_orchestratorData := None |} |} in
           tryCatchFinally
             (attempt net agent cur originalQuery loadingMessageId)
             (fun error => updateMessage loadingMessageId (errorUpdates error))
             (setLoading false)) w
    | _, _ => (Normal tt, w)
    end.

End ChatInterface.
Export ChatInterface.


(** ** The sessions the store actions build *)

Module Built.

(** The message [addMessage] builds from the next two clock readings. *)
Definition newMessageAt (w : World) (messageData : MessageData) : ChatMessage :=
  {| m_id := "msg_" ++ showZ (clock w (elapsed w));
     m_content := d_content messageData;
     m_role := d_role messageData;
     m_timestamp := DateObj (clock w (S (elapsed w)));
     m_agentId := d_agentId messageData;
     m_metadata := d_metadata messageData |}.

Definition appended (w : World) (messageData : MessageData) (cur : ChatSession) : ChatSession :=
  {| s_id := s_id cur;
     s_title := s_title cur;
     s_messages := (s_messages cur ++ [newMessageAt w messageData])%list;
     s_createdAt := s_createdAt cur;
     s_updatedAt := DateObj (clock w (S (S (elapsed w))));
     s_agentId := s_agentId cur |}.

Definition replace_session (target updated : ChatSession) (l : list ChatSession) :=
  map (fun s => if String.eqb (s_id s) (s_id target) then updated else s) l.

Definition updatedWith (w : World) (messageId : string) (updates : Updates)
    (cur : ChatSession) : ChatSession :=
  {| s_id := s_id cur;
     s_title := s_title cur;
     s_messages :=
       map (fun msg => if String.eqb (m_id msg) messageId
                       then spread msg updates else msg) (s_messages cur);
     s_createdAt := s_createdAt cur;
     s_updatedAt := DateObj (clock w (elapsed w));
     s_agentId := s_agentId cur |}.


End Built.
Export Built.

(** ** The orchestrator's intent classifier (spec sections 3, 4.1 and 4.3)

    The orchestrator service is not among the sources; its registry, its
    classifier and its session store are modelled from the specification.
    The scoring function and the relevance threshold, which the
    specification leaves open, are parameters. *)

Module Classifier.

Inductive Health : Type := healthy | degraded | unreachable.

(** Modelled from the spec: the Agent record of the registry (section 3),
    missing from the sources: id, capability tags, endpoint, status, last
    observed latency. *)
Record RegisteredAgent : Type := mkRegisteredAgent {
  r_id : string;
  r_capabilities : list string;
  r_endpoint : string;
  r_status : Health;
  r_latency : Z
}.

Inductive QueryType : Type :=
  | single_agent | collaborative | sequential | unclassified.

Record Step : Type := mkStep {
  step_text : string;
  step_target : option string;
  step_depends_on : option nat
}.

(** Modelled from the spec: the result of [classify] (section 4.1), missing
    from the sources: a type, the ordered target agents and, for a sequential
    query, the ordered steps. *)
Record Classification : Type := mkClassification {
  c_type : QueryType;
  c_target_agents : list string;
  c_steps : list Step
}.

Record Turn : Type := mkTurn {
  t_query : string;
  t_classification : Classification;
  t_answer : string
}.

(** Modelled from the spec: the Session record (section 3), missing from the
    sources: the ordered prior turns and the key/value context bag. *)
Record Session : Type := mkSession {
  turns : list Turn;
  context : list (string * string)
}.

Record Orchestrator : Type := mkOrchestrator {
  registry : list RegisteredAgent;
  session_store : list (string * Session)
}.

Definition lower (c : ascii) : ascii :=
  let n := nat_of_ascii c in
  if (Nat.leb 65 n && Nat.leb n 90)%bool then ascii_of_nat (n + 32) else c.

(** The words of a query: lower-cased, separated by spaces. *)
Fixpoint words_from (s : string) (word : string) : list string :=
  match s with
  | EmptyString => if String.eqb word "" then [] else [word]
  | String c r =>
      if Ascii.eqb c " "
      then (if String.eqb word "" then words_from r ""
            else word :: words_from r "")
      else words_from r (word ++ String (lower c) "")
  end.

Definition words (query : string) : list string := words_from query "".

Definition is_word (w : string) (l : list string) : bool :=
  existsb (String.eqb w) l.

(** Conjunction markers: "and", "also", "both". *)
Definition has_conjunction (ws : list string) : bool :=
  existsb (fun w => is_word w ["and"; "also"; "both"]) ws.

(** Splitting on the ordering markers "then", "next" and "after that"; a
    leading "first" belongs to the marker, not to the step. *)
Fixpoint split_steps (ws : list string) (cur : list string) : list (list string) :=
  match ws with
  | [] => [cur]
  | w :: r =>
      if is_word w ["then"; "next"] then cur :: split_steps r []
      else
        match r with
        | w2 :: r2 =>
            if (String.eqb w "after" && String.eqb w2 "that")%bool
            then cur :: split_steps r2 []
            else if String.eqb w "first" then split_steps r cur
            else split_steps r (cur ++ [w])%list
        | [] =>
            if String.eqb w "first" then [cur] else [(cur ++ [w])%list]
        end
  end.

Definition step_texts (ws : list string) : list string :=
  map (join " ")
      (List.filter (fun seg => negb (Nat.eqb (length seg) 0)) (split_steps ws [])).

(** How specific an agent is: the length of its longest capability tag. *)
Definition specificity (a : RegisteredAgent) : nat :=
  fold_right Nat.max 0%nat (map String.length (r_capabilities a)).

Section Scoring.

(** The score of an agent for a query, and the minimum relevance. *)
Variable score : string -> RegisteredAgent -> nat.
Variable threshold : nat.

Definition clears (query : string) (a : RegisteredAgent) : bool :=
  Nat.leb threshold (score query a).

(** Modelled from the spec: the tie-break of section 4.1, missing from the
    sources: a higher score wins; on equal scores the more specific
    capability tag; then the lexically smaller agent id. *)
Definition better (query : string) (a b : RegisteredAgent) : bool :=
  (Nat.ltb (score query b) (score query a)
   || (Nat.eqb (score query a) (score query b)
       && (Nat.ltb (specificity b) (specificity a)
           || (Nat.eqb (specificity a) (specificity b)
               && String.ltb (r_id a) (r_id b)))))%bool.

Definition pick (query : string) (acc : option RegisteredAgent)
    (a : RegisteredAgent) : option RegisteredAgent :=
  match acc with
  | None => Some a
  | Some b => if better query a b then Some a else Some b
  end.

Definition best_agent (reg : list RegisteredAgent) (query : string)
    : option RegisteredAgent :=
  fold_left (pick query) reg None.

Definition relevant (reg : list RegisteredAgent) (query : string)
    : list RegisteredAgent :=
  List.filter (clears query) reg.

Fixpoint chain (texts : list string) (reg : list RegisteredAgent) (k : nat)
    : list Step :=
  match texts with
  | [] => []
  | t :: r =>
      {| step_text := t;
         step_target := option_map r_id (best_agent reg t);
         step_depends_on := match k with O => None | S j => Some j end |}
      :: chain r reg (S k)
  end.

(** Modelled from the spec: [classify(query, session_context)] of section
    4.1, missing from the sources.  A conjunction marker with two or more
    relevant agents gives a collaborative query over those agents in
    registration order; an ordering marker that splits the query into two
    or more steps gives a sequential query, each step re-classified to its
    best agent and depending on the step before it; otherwise the best
    agent alone, or the unclassified sentinel when it does not clear the
    threshold. *)
Definition classify (reg : list RegisteredAgent) (query : string)
    (session_context : option Session) : Classification :=
  let ws := words query in
  let rel := relevant reg query in
  let texts := step_texts ws in
  if (has_conjunction ws && Nat.leb 2 (length rel))%bool then
    {| c_type := collaborative; c_target_agents := map r_id rel; c_steps := [] |}
  else if Nat.leb 2 (length texts) then
    let steps := chain texts reg 0 in
    {| c_type := sequential;
       c_target_agents := omap step_target steps;
       c_steps := steps |}
  else
    match best_agent reg query with
    | Some a =>
        if clears query a
        then {| c_type := single_agent; c_target_agents := [r_id a]; c_steps := [] |}
        else {| c_type := unclassified; c_target_agents := []; c_steps := [] |}
    | None => {| c_type := unclassified; c_target_agents := []; c_steps := [] |}
    end.

(** Modelled from the spec: the Session Store interface of section 4.3,
    missing from the sources: [get], [put] and [append_turn] on records
    keyed by session id. *)
Fixpoint get_session (sessionId : string) (store : list (string * Session))
    : option Session :=
  match store with
  | [] => None
  | (k, s) :: r => if String.eqb k sessionId then Some s else get_session sessionId r
  end.

Fixpoint put_session (sessionId : string) (s : Session)
    (store : list (string * Session)) : list (string * Session) :=
  match store with
  | [] => [(sessionId, s)]
  | (k, s') :: r =>
      if String.eqb k sessionId then (k, s) :: r
      else (k, s') :: put_session sessionId s r
  end.

Definition append_turn (sessionId : string) (t : Turn) (o : Orchestrator)
    : Orchestrator :=
  let s := default {| turns := []; context := [] |}
                   (get_session sessionId (session_store o)) in
  {| registry := registry o;
     session_store :=
       put_session sessionId
         {| turns := (turns s ++ [t])%list; context := context s |}
         (session_store o) |}.


End Scoring.

(** A keyword-overlap score: the number of query words among the agent's
    capability keywords. *)
Definition overlap_score (query : string) (a : RegisteredAgent) : nat :=
  length (List.filter (fun w => is_word w (r_capabilities a)) (words query)).

End Classifier.
Export Classifier.

(** ** Predicates used in the statements *)

Module Statements.

(** The fields [{ ...agent, status }] copies. *)
Definition same_but_status (a a' : Agent) : Prop :=
  a_id a' = a_id a /\ a_name a' = a_name a /\
  a_description a' = a_description a /\
  a_capabilities a' = a_capabilities a /\
  a_avatar a' = a_avatar a /\ a_endpoint a' = a_endpoint a /\
  a_type a' = a_type a.

(** A member of the reply, when the reply is an object. *)
Definition member (data : json) (key : string) : option json :=
  match data with
  | JObj members => assoc key members
  | _ => None
  end.

(** The member names of an object, in order. *)
Definition keys (data : json) : list string :=
  match data with
  | JObj members => map fst members
  | _ => []
  end.

(** The field read second: the one [responseField] does not name. *)
Definition otherField (t : AgentType) : string :=
  if is_orchestrator t then "response" else "answer".

(** The reply carries the payload [v] under one of the two accepted names
    (and nothing under the other). *)
Definition carries_payload (data : json) (v : json) : Prop :=
  (member data "answer" = Some v /\ member data "response" = None) \/
  (member data "response" = Some v /\ member data "answer" = None).

(** Every message of the session was created by [addMessage]. *)
Definition ids_from_addMessage (s : ChatSession) : Prop :=
  forall m, In m (s_messages s) -> exists n, m_id m = "msg_" ++ showZ n.

(** A state in which every date slot holds text, as after a reload. *)
Definition text_date (d : DateSlot) : Prop :=
  match d with
  | DateText _ => True
  | DateObj _ => False
  end.

Definition text_dates_session (s : ChatSession) : Prop :=
  text_date (s_createdAt s) /\ text_date (s_updatedAt s) /\
  Forall (fun m => text_date (m_timestamp m)) (s_messages s).

End Statements.
Export Statements.

(** ** Sample states *)

Module Samples.

Definition sampleEnv : ProcessEnv :=
  {| ORCHESTRATOR_API_URL := None;
     FINANCIAL_AGENT_API_URL := None;
     SALES_AGENT_API_URL := None |}.

Definition sampleSession : ChatSession :=
  {| s_id := "session_1699999990000";
     s_title := "New Chat - 11/14/2023";
     s_messages := [];
     s_createdAt := DateObj 1699999990000;
     s_updatedAt := DateObj 1699999990000;
     s_agentId := "central-orchestrator" |}.

(** The orchestrator is selected, one empty session is current, the user has
    typed a question, and the whole operation runs within one millisecond. *)
Definition sampleWorld : World :=
  {| chat := {| currentSession := Some sampleSession;
                sessions := [sampleSession];
                isLoading := false |};
     agentStore := initialAgentStore sampleEnv;
     inputValue := "Show P&L";
     clock := fun _ => 1700000000000;
     elapsed := 0;
     localeDate := fun _ => "11/14/2023" |}.

Definition idleWorld : World :=
  {| chat := initialChatStore;
     agentStore := initialAgentStore sampleEnv;
     inputValue := "Show P&L";
     clock := fun _ => 1700000000000;
     elapsed := 0;
     localeDate := fun _ => "11/14/2023" |}.

Definition okReply : json :=
  JObj [ ("answer", JStr "Revenue is up."); ("session_id", JStr "session_1699999990000") ].

Definition net_ok : Network := fun _ _ => FetchResponse 200 (BodyJson okReply).

Definition net_500 : Network :=
  fun _ _ => FetchResponse 500 (BodyJson (JObj [ ("detail", JStr "Internal Server Error") ])).

Definition net_down : Network := fun _ _ => FetchRejected (ErrorObj "Failed to fetch").

(** The two messages one send adds to [sampleSession] in [sampleWorld]. *)
Definition sentUserMessage : ChatMessage :=
  {| m_id := "msg_1700000000000";
     m_content := JStr "Show P&L";
     m_role := user;
     m_timestamp := DateObj 1700000000000;
     m_agentId := Some "central-orchestrator";
     m_metadata := None |}.

Definition sentPlaceholder : ChatMessage :=
  {| m_id := "msg_1700000000000";
     m_content :=
       JStr "Coordinating with specialized agents to provide comprehensive insights...";
     m_role := assistant;
     m_timestamp := DateObj 1700000000000;
     m_agentId := Some "central-orchestrator";
     m_metadata := Some {| md_type := None; md_loading := Some true;
                           md_error := None; md_orchestratorData := None |} |}.

(** A store holding one session with those two messages. *)
Definition sampleHistory : ChatSession :=
  {| s_id := "session_1699999990000";
     s_title := "New Chat - 11/14/2023";
     s_messages := [sentUserMessage; sentPlaceholder];
     s_createdAt := DateObj 1699999990000;
     s_updatedAt := DateObj 1700000000000;
     s_agentId := "central-orchestrator" |}.

Definition sampleStore : ChatStore :=
  {| currentSession := Some sampleHistory;
     sessions := [sampleHistory];
     isLoading := false |}.

Definition sampleRegistry : list RegisteredAgent :=
  [ {| r_id := "financial_intelligence";
       r_capabilities := ["financial"; "revenue"; "profit"; "forecast"];
       r_endpoint := "http://localhost:8002";
       r_status := healthy;
       r_latency := 12 |};
    {| r_id := "sales_marketing";
       r_capabilities := ["lead"; "sales"; "marketing"; "campaign"; "pipeline"; "email"];
       r_endpoint := "http://localhost:8003";
       r_status := healthy;
       r_latency := 15 |} ].


Definition userMessageData : MessageData :=
  {| d_content := JStr "Show P&L";
     d_role := user;
     d_agentId := Some "central-orchestrator";
     d_metadata := None |}.

Definition placeholderData : MessageData :=
  {| d_content := JStr (loadingText orchestrator);
     d_role := assistant;
     d_agentId := Some "central-orchestrator";
     d_metadata := Some {| md_type := None; md_loading := Some true;
                           md_error := None; md_orchestratorData := None |} |}.

End Samples.
Export Samples.

(** ** The settings store (settings-store.ts) *)

Module SettingsStore.












End SettingsStore.
Export SettingsStore.

(** ** The components around the chat (agent selector, session sidebar, page) *)

Module Components.

Definition with_agentStore (w : World) (a : AgentStore) : World :=
  {| chat := chat w; agentStore := a; inputValue := inputValue w;
     clock := clock w; elapsed := elapsed w; localeDate := localeDate w |}.

(** The agent store's [set(state => ...)] on the page state. *)
Definition setAgent (f : AgentStore -> AgentStore) : St unit :=
  fun w => (Normal tt, with_agentStore w (f (agentStore w))).

(** Agent selector, [handleSelectAgent]: [agents] and [currentSession] are
    the values of the last render, the state when the handler starts. *)
Definition handleSelectAgent (agentId : string) : St unit :=
  fun w =>
    let rendered_agents := agents (agentStore w) in
    let rendered_session := currentSession (chat w) in
    (letS _ := setAgent (selectAgent agentId) in
     match List.find (fun a => String.eqb (a_id a) agentId) rendered_agents with
     | Some newAgent =>
         match rendered_session with
         | None => createSession agentId
         | Some cur =>
             if negb (String.eqb (s_agentId cur) agentId)
             then createSession agentId
             else ret tt
         end
     | None => ret tt
     end) w.

(** The capability badges of an agent card: [capabilities.slice(0, 3)], then
    [+N more] when there are more than three. *)
Definition moreBadge (capabilities : list string) : string :=
  "+" ++ showZ (Z.of_nat (length capabilities) - 3) ++ " more".

Definition capabilityBadges (capabilities : list string) : list string :=
  app (firstn 3 capabilities)
      (if Nat.ltb 3 (length capabilities) then [moreBadge capabilities] else []).


(** The page's effect "create initial session if none exists":
    [if (session && selectedAgent && !currentSession) createSession(...)],
    where [session] is the sign-in session. *)
Definition ensureSession (signedIn : bool) : St unit :=
  fun w =>
    if signedIn then
      match selectedAgent (agentStore w), currentSession (chat w) with
      | Some agent, None => createSession (a_id agent) w
      | _, _ => (Normal tt, w)
      end
    else (Normal tt, w).

End Components.
Export Components.

(** ** The actions of the chat store, as the components call them *)

Module Actions.

Inductive ChatAction : Type :=
  | CreateSession (agentId : string)
  | SetCurrentSession (sessionId : string)
  | AddMessage (messageData : MessageData)
  | UpdateMessage (messageId : string) (updates : Updates)
  | ClearSessions
  | DeleteSession (sessionId : string)
  | SetLoading (loading : bool).

Definition run (a : ChatAction) : St unit :=
  match a with
  | CreateSession agentId => createSession agentId
  | SetCurrentSession sessionId => setCurrentSession sessionId
  | AddMessage messageData => addMessage messageData
  | UpdateMessage messageId updates => updateMessage messageId updates
  | ClearSessions => clearSessions
  | DeleteSession sessionId => deleteSession sessionId
  | SetLoading loading => setLoading loading
  end.

Fixpoint run_all (l : list ChatAction) (w : World) : World :=
  match l with
  | [] => w
  | a :: r => run_all r (exec (run a) w)
  end.

(** Two sessions opened within one millisecond, a message having been added
    to the first: both carry the id [session_1700000000000]. *)
Definition twinWorld : World :=
  run_all [ CreateSession "central-orchestrator";
            AddMessage userMessageData;
            CreateSession "sales-marketing" ] idleWorld.

Definition olderTwin : ChatSession :=
  {| s_id := "session_1700000000000";
     s_title := "New Chat - 11/14/2023";
     s_messages := [sentUserMessage];
     s_createdAt := DateObj 1700000000000;
     s_updatedAt := DateObj 1700000000000;
     s_agentId := "central-orchestrator" |}.

Definition newerTwin : ChatSession :=
  {| s_id := "session_1700000000000";
     s_title := "New Chat - 11/14/2023";
     s_messages := [];
     s_createdAt := DateObj 1700000000000;
     s_updatedAt := DateObj 1700000000000;
     s_agentId := "sales-marketing" |}.

(** The current session, when there is one, is the first entry of the list
    with its id: the entry [setCurrentSession] would select for that id. *)
Definition current_first_listed (st : ChatStore) : Prop :=
  match currentSession st with
  | Some cur =>
      List.find (fun s => String.eqb (s_id s) (s_id cur)) (sessions st) = Some cur
  | None => True
  end.

(** The session [createSession] builds from the next four clock readings. *)
Definition newSessionAt (w : World) (agentId : string) : ChatSession :=
  {| s_id := "session_" ++ showZ (clock w (elapsed w));
     s_title := "New Chat - " ++ localeDate w (clock w (S (elapsed w)));
     s_messages := [];
     s_createdAt := DateObj (clock w (S (S (elapsed w))));
     s_updatedAt := DateObj (clock w (S (S (S (elapsed w)))));
     s_agentId := agentId |}.

(** The string with the given bytes. *)
Definition utf8 (bytes : list nat) : string :=
  fold_right (fun b s => String (ascii_of_nat b) s) EmptyString bytes.

(** The white space of ECMAScript (WhiteSpace and LineTerminator), each code
    point in UTF-8: U+0009 to U+000D, U+0020, U+00A0, U+1680, U+2000 to
    U+200A, U+2028, U+2029, U+202F, U+205F, U+3000, U+FEFF. *)
Definition whitespace : list string :=
  map utf8
    [ [9]; [10]; [11]; [12]; [13]; [32]; [194; 160]; [225; 154; 128];
      [226; 128; 128]; [226; 128; 129]; [226; 128; 130]; [226; 128; 131];
      [226; 128; 132]; [226; 128; 133]; [226; 128; 134]; [226; 128; 135];
      [226; 128; 136]; [226; 128; 137]; [226; 128; 138];
      [226; 128; 168]; [226; 128; 169]; [226; 128; 175];
      [226; 129; 159]; [227; 128; 128]; [239; 187; 191] ]%nat.

(** The string is a sequence of white space code points. *)
Definition white_only (s : string) : Prop :=
  exists l, Forall (fun x => In x whitespace) l /\ s = String.concat "" l.

(** The sample page with only white space typed: a no-break space, a space
    and an ideographic space. *)
Definition nbspWorld : World :=
  {| chat := chat sampleWorld;
     agentStore := agentStore sampleWorld;
     inputValue := utf8 [194; 160; 32; 227; 128; 128]%nat;
     clock := clock sampleWorld;
     elapsed := elapsed sampleWorld;
     localeDate := localeDate sampleWorld |}.

(** The character occurs in the string. *)
Fixpoint has_char (c : ascii) (s : string) : bool :=
  match s with
  | EmptyString => false
  | String x r => (Ascii.eqb x c || has_char c r)%bool
  end.

(** The placeholder message is as [addMessage] built it for this agent. *)
Definition still_loading (agent : Agent) (p : ChatMessage) : Prop :=
  m_role p = assistant /\
  m_content p = JStr (loadingText (a_type agent)) /\
  m_agentId p = Some (a_id agent) /\
  m_metadata p = Some {| md_type := None; md_loading := Some true;
                         md_error := None; md_orchestratorData := None |}.


(** The selected agent, when there is one, is an entry of the agent list. *)
Definition selected_listed (st : AgentStore) : Prop :=
  match selectedAgent st with
  | Some sel => In sel (agents st)
  | None => True
  end.

End Actions.
Export Actions.
(** * Properties *)

(** ** Dates *)

Example toISOString_epoch : toISOString 0 = "1970-01-01T00:00:00.000Z".
Proof. reflexivity. Qed.

Example toISOString_2023 : toISOString 1700000000123 = "2023-11-14T22:13:20.123Z".
Proof. reflexivity. Qed.

Example toISOString_leap : toISOString 1709164800000 = "2024-02-29T00:00:00.000Z".
Proof. reflexivity. Qed.

Example toISOString_before_epoch : toISOString (-1) = "1969-12-31T23:59:59.999Z".
Proof. reflexivity. Qed.

(** ** Numbers in template literals *)

Example Number_toString_small : Number_toString 42 = "42".
Proof. vm_compute. reflexivity. Qed.

Example Number_toString_negative : Number_toString (-5) = "-5".
Proof. vm_compute. reflexivity. Qed.

Example Number_toString_rounded :
  Number_toString 9007199254740993 = "9007199254740992".
Proof. vm_compute. reflexivity. Qed.

Example Number_toString_shortest :
  Number_toString (2 ^ 60) = "1152921504606847000".
Proof. vm_compute. reflexivity. Qed.

Example Number_toString_exponent : Number_toString (10 ^ 21) = "1e+21".
Proof. vm_compute. reflexivity. Qed.

Example Number_toString_exponent_digits :
  Number_toString (2 ^ 70) = "1.1805916207174113e+21".
Proof. vm_compute. reflexivity. Qed.

Example Number_toString_infinity : Number_toString (2 ^ 1024) = "Infinity".
Proof. vm_compute. reflexivity. Qed.

Example ToString_array :
  ToString (JArr [JNum 1; JNull; JStr "a"; JArr [JBool true; JNum 20]])
  = Normal "1,,a,true,20".
Proof. vm_compute. reflexivity. Qed.

(** ** Lists as the stores use them *)

Section ListFacts.
Context {A B : Type}.

Lemma lookup_map (f : A -> B) (l : list A) (i : nat) :
  map f l !! i = f <$> (l !! i).
Proof.
  revert i. induction l as [|x l IH]; intros [|i]; simpl; auto.
Qed.

Lemma filter_sublist (f : A -> bool) (l : list A) :
  sublist (List.filter f l) l.
Proof.
  induction l as [|x l IH]; simpl.
  - constructor.
  - destruct (f x); [apply sublist_skip | apply sublist_cons]; exact IH.
Qed.

Lemma filter_split_length (f : A -> bool) (l : list A) :
  (length (List.filter f l)
   + length (List.filter (fun x => negb (f x)) l) = length l)%nat.
Proof.
  induction l as [|x l IH]; simpl; [reflexivity|].
  destruct (f x); simpl; lia.
Qed.

Lemma map_unchanged (f : A -> A) (l : list A) :
  (forall x, In x l -> f x = x) -> map f l = l.
Proof.
  induction l as [|x l IH]; simpl; intros H; [reflexivity|].
  rewrite H by auto. rewrite IH by auto. reflexivity.
Qed.
End ListFacts.

(** ** The chat store *)

Section ChatStoreFacts.

Implicit Types (w : World) (cur s : ChatSession) (m : ChatMessage).

Lemma addMessage_run w messageData cur :
  currentSession (chat w) = Some cur ->
  addMessage messageData w =
    (Normal tt,
     {| chat := {| currentSession := Some (appended w messageData cur);
                   sessions := replace_session cur (appended w messageData cur)
                                               (sessions (chat w));
                   isLoading := isLoading (chat w) |};
        agentStore := agentStore w;
        inputValue := inputValue w;
        clock := clock w;
        elapsed := S (S (S (elapsed w)));
        localeDate := localeDate w |}).
Proof.
  intros Hcur. unfold addMessage, bindS, get. simpl. rewrite Hcur. reflexivity.
Qed.

Lemma updateMessage_run w messageId updates cur :
  currentSession (chat w) = Some cur ->
  updateMessage messageId updates w =
    (Normal tt,
     {| chat := {| currentSession := Some (updatedWith w messageId updates cur);
                   sessions := replace_session cur (updatedWith w messageId updates cur)
                                               (sessions (chat w));
                   isLoading := isLoading (chat w) |};
        agentStore := agentStore w;
        inputValue := inputValue w;
        clock := clock w;
        elapsed := S (elapsed w);
        localeDate := localeDate w |}).
Proof.
  intros Hcur. unfold updateMessage, bindS, get. simpl. rewrite Hcur. reflexivity.
Qed.

Lemma replace_session_length target updated l :
  length (replace_session target updated l) = length l.
Proof. apply length_map. Qed.

Lemma replace_session_other target updated l i s :
  l !! i = Some s -> s_id s <> s_id target ->
  replace_session target updated l !! i = Some s.
Proof.
  intros Hi Hne. unfold replace_session. rewrite lookup_map, Hi. simpl.
  apply String.eqb_neq in Hne. rewrite Hne. reflexivity.
Qed.

Lemma replace_session_same target updated l i s :
  l !! i = Some s -> s_id s = s_id target ->
  replace_session target updated l !! i = Some updated.
Proof.
  intros Hi He. unfold replace_session. rewrite lookup_map, Hi. simpl.
  apply String.eqb_eq in He. rewrite He. reflexivity.
Qed.

End ChatStoreFacts.

(** ** Identifiers built from clock readings *)

Section Identifiers.

(** A printed integer starts with a digit or a minus sign. *)
Lemma showZ_head (n : Z) :
  exists c r, showZ n = String c r /\ c <> "l"%char.
Proof.
  unfold showZ. destruct n as [|p|p]; simpl.
  - eexists _, _. split; [reflexivity | discriminate].
  - unfold NilZero.string_of_uint.
    destruct (Pos.to_uint p); simpl;
      eexists _, _; (split; [reflexivity | discriminate]).
  - eexists _, _. split; [reflexivity | discriminate].
Qed.

(** The id the send operation computes for its placeholder is never an id
    [addMessage] assigns. *)
Lemma loading_id_not_assigned (t t' : Z) :
  "msg_loading_" ++ showZ t <> "msg_" ++ showZ t'.
Proof.
  simpl. intros H. injection H as H.
  destruct (showZ_head t') as (c & r & Hs & Hc).
  rewrite Hs in H. injection H as H _. congruence.
Qed.

Lemma showZ_inj (a b : Z) : showZ a = showZ b -> a = b.
Proof.
  assert (Hnil : forall z, Z.to_int z <> Decimal.Pos Decimal.Nil /\
                           Z.to_int z <> Decimal.Neg Decimal.Nil).
  { intros [|p|p]; simpl; split; try discriminate;
      intros H; injection H as H;
      exact (DecimalPos.Unsigned.to_uint_nonnil p H). }
  unfold showZ. intros H.
  apply (f_equal NilZero.int_of_string) in H.
  destruct (Hnil a) as [Ha1 Ha2], (Hnil b) as [Hb1 Hb2].
  rewrite !NilZero.isi in H by assumption.
  injection H as H. apply DecimalZ.to_int_inj. exact H.
Qed.

End Identifiers.

(** ** The send operation *)

Section SendFacts.

Variable net : Network.

(** [updateMessage] with an id no message of the current session carries
    changes no message. *)
Lemma updatedWith_miss (w : World) (messageId : string) (updates : Updates)
    (cur : ChatSession) :
  (forall m, In m (s_messages cur) -> m_id m <> messageId) ->
  s_messages (updatedWith w messageId updates cur) = s_messages cur.
Proof.
  intros Hmiss. simpl. apply map_unchanged. intros m Hin.
  apply Hmiss, String.eqb_neq in Hin. rewrite Hin. reflexivity.
Qed.

(** The [try] block either throws before it touches the store, or ends in
    the one [updateMessage] call. *)
Lemma attempt_cases (agent : Agent) (cur : ChatSession)
    (originalQuery loadingMessageId : string) (w : World) :
  (exists e, attempt net agent cur originalQuery loadingMessageId w = (Throw e, w)) \/
  (exists updates,
      attempt net agent cur originalQuery loadingMessageId w
      = updateMessage loadingMessageId updates w).
Proof.
  unfold attempt, bindS, lift.
  destruct (fetchData net agent _) as [data|e]; [|left; eauto].
  destruct (responseContent _ data) as [content|e]; [|left; eauto].
  destruct (enhancedContent _ data content) as [enhanced|e]; [|left; eauto].
  right. eauto.
Qed.

(** Whatever the network answers, the [try]/[catch]/[finally] statement
    amounts to one [updateMessage] on the placeholder id followed by
    [setLoading(false)]. *)
Lemma try_statement_run (agent : Agent) (cur cur3 : ChatSession)
    (originalQuery loadingMessageId : string) (w : World) :
  currentSession (chat w) = Some cur3 ->
  exists updates,
    tryCatchFinally
      (attempt net agent cur originalQuery loadingMessageId)
      (fun error => updateMessage loadingMessageId (errorUpdates error))
      (setLoading false) w
    = (Normal tt,
       exec (setLoading false) (exec (updateMessage loadingMessageId updates) w)).
Proof.
  intros Hcur. unfold tryCatchFinally.
  destruct (attempt_cases agent cur originalQuery loadingMessageId w)
    as [[e He] | [updates Hu]].
  - exists (errorUpdates e). rewrite He. unfold exec.
    rewrite (updateMessage_run w _ _ cur3 Hcur). reflexivity.
  - exists updates. rewrite Hu. unfold exec.
    rewrite (updateMessage_run w _ _ cur3 Hcur). reflexivity.
Qed.

(** The operation never completes abruptly. *)
Lemma handleSendMessage_completes (w : World) :
  fst (handleSendMessage net w) = Normal tt.
Proof.
  unfold handleSendMessage.
  destruct (blank (inputValue w)); [reflexivity|].
  destruct (selectedAgent (agentStore w)) as [agent|]; [|reflexivity].
  destruct (currentSession (chat w)) as [cur|] eqn:Hcur; [|reflexivity].
  unfold bindS at 1. rewrite (addMessage_run w _ cur Hcur).
  unfold bindS at 1. cbn [setInputValue].
  unfold bindS at 1. cbn [setLoading set].
  unfold bindS at 1. cbn [Date_now].
  unfold bindS at 1.
  match goal with
  | |- context [addMessage ?md ?w2] =>
      rewrite (addMessage_run w2 md _ eq_refl)
  end.
  match goal with
  | |- context [tryCatchFinally ?b ?h ?f ?w3] =>
      destruct (try_statement_run agent cur _ (inputValue w)
                  ("msg_loading_" ++ showZ (clock w (S (S (S (elapsed w))))))
                  w3 eq_refl) as [updates Hrun]
  end.
  cbn [elapsed clock chat with_chat] in Hrun |- *.
  rewrite Hrun. reflexivity.
Qed.

End SendFacts.

Section SendOutcome.

Variable net : Network.

Lemma ids_from_addMessage_miss (s : ChatSession) (t : Z) (m : ChatMessage) :
  ids_from_addMessage s -> In m (s_messages s) ->
  m_id m <> "msg_loading_" ++ showZ t.
Proof.
  intros Hids Hin Heq. destruct (Hids m Hin) as [n Hn].
  rewrite Hn in Heq. symmetry in Heq.
  exact (loading_id_not_assigned t n Heq).
Qed.

(** Whatever the network answers, a send that passes its guard leaves the
    current session with exactly two more messages, the user's and the
    placeholder as [addMessage] built it: the [updateMessage] call names an
    id no message carries.  The loading flag of the store ends false and
    the input box is cleared. *)
Lemma send_keeps_placeholder (w : World) (agent : Agent) (cur : ChatSession) :
  blank (inputValue w) = false ->
  selectedAgent (agentStore w) = Some agent ->
  currentSession (chat w) = Some cur ->
  ids_from_addMessage cur ->
  let w' := exec (handleSendMessage net) w in
  exists cur' u p,
    currentSession (chat w') = Some cur' /\
    s_messages cur' = (s_messages cur ++ [u; p])%list /\
    m_role u = user /\ m_content u = JStr (inputValue w) /\
    m_role p = assistant /\
    m_content p = JStr (loadingText (a_type agent)) /\
    (exists md, m_metadata p = Some md /\ md_loading md = Some true /\
                md_error md = None) /\
    m_id u = "msg_" ++ showZ (clock w (elapsed w)) /\
    m_id p = "msg_" ++ showZ (clock w (S (S (S (S (elapsed w)))))) /\
    isLoading (chat w') = false /\
    inputValue w' = "".
Proof.
  intros Hblank Hagent Hcur Hids w'. unfold exec in w'.
  remember (handleSendMessage net w) as r eqn:Hr.
  unfold handleSendMessage in Hr. rewrite Hblank, Hagent, Hcur in Hr.
  unfold bindS at 1 in Hr. rewrite (addMessage_run w _ cur Hcur) in Hr.
  unfold bindS at 1 in Hr. cbn [setInputValue] in Hr.
  unfold bindS at 1 in Hr. cbn [setLoading set] in Hr.
  unfold bindS at 1 in Hr. cbn [Date_now] in Hr.
  unfold bindS at 1 in Hr.
  match type of Hr with
  | context [addMessage ?md ?w2] =>
      rewrite (addMessage_run w2 md _ eq_refl) in Hr
  end.
  match type of Hr with
  | context [tryCatchFinally ?b ?h ?f ?w3] =>
      destruct (try_statement_run net agent cur _ (inputValue w)
                  ("msg_loading_" ++ showZ (clock w (S (S (S (elapsed w))))))
                  w3 eq_refl) as [updates Hrun];
      set (W3 := w3) in *
  end.
  cbn [elapsed clock chat with_chat] in Hrun, Hr.
  rewrite Hrun in Hr. unfold exec in Hr.
  rewrite (updateMessage_run W3 _ updates _ eq_refl) in Hr.
  cbn [snd setLoading set chat with_chat currentSession isLoading inputValue] in Hr.
  subst w' r. cbn [snd chat currentSession isLoading inputValue].
  eexists _, _, _. split; [reflexivity|].
  split.
  { rewrite updatedWith_miss.
    - subst W3. cbn [chat currentSession appended s_messages].
      rewrite <- app_assoc. reflexivity.
    - subst W3. cbn [chat currentSession appended s_messages].
      intros m Hin. apply in_app_or in Hin as [Hin|[<-|[]]].
      + apply in_app_or in Hin as [Hin|[<-|[]]].
        * eapply ids_from_addMessage_miss; eassumption.
        * intros Heq. symmetry in Heq.
          exact (loading_id_not_assigned _ _ Heq).
      + intros Heq. symmetry in Heq.
        exact (loading_id_not_assigned _ _ Heq). }
  cbn. repeat split. eexists. repeat split.
Qed.

End SendOutcome.


Section MessageIds.

(** A session opened by [createSession] and filled by [addMessage] only
    carries ids of the form [msg_<reading>]. *)
Lemma createSession_ids (agentId : string) (w : World) :
  exists cur, currentSession (chat (exec (createSession agentId) w)) = Some cur /\
              s_messages cur = [] /\ ids_from_addMessage cur.
Proof.
  eexists. split; [reflexivity|]. split; [reflexivity|]. intros m [].
Qed.

Lemma addMessage_ids (w : World) (messageData : MessageData) (cur : ChatSession) :
  currentSession (chat w) = Some cur -> ids_from_addMessage cur ->
  exists cur', currentSession (chat (exec (addMessage messageData) w)) = Some cur' /\
               ids_from_addMessage cur'.
Proof.
  intros Hcur Hids. unfold exec. rewrite (addMessage_run w messageData cur Hcur).
  eexists. split; [reflexivity|].
  intros m Hin. cbn [appended s_messages] in Hin.
  apply in_app_or in Hin as [Hin|[<-|[]]]; [exact (Hids m Hin)|].
  eexists. reflexivity.
Qed.

(** X8.  Two [addMessage] calls in a row give their messages the same id exactly
    when the clock shows the same millisecond at both calls. *)
Lemma consecutive_ids_equal_iff (w : World) (first second : MessageData)
    (cur : ChatSession) :
  currentSession (chat w) = Some cur ->
  exists cur2 u p,
    currentSession (chat (exec (letS _ := addMessage first in addMessage second) w))
      = Some cur2 /\
    s_messages cur2 = (s_messages cur ++ [u; p])%list /\
    (m_id u = m_id p <->
     clock w (elapsed w) = clock w (S (S (S (elapsed w))))).
Proof.
  intros Hcur. unfold exec, bindS.
  rewrite (addMessage_run w first cur Hcur).
  match goal with
  | |- context [addMessage second ?w1] =>
      rewrite (addMessage_run w1 second _ eq_refl)
  end.
  cbn [snd chat currentSession appended s_messages clock elapsed].
  eexists _, _, _. split; [reflexivity|].
  split; [cbn [s_messages appended]; rewrite <- app_assoc; reflexivity|].
  cbn [newMessageAt m_id clock elapsed]. split.
  - intros H. injection H as H. apply showZ_inj in H. exact H.
  - intros H. rewrite H. reflexivity.
Qed.

End MessageIds.

(** ** Store actions: frames and effects *)

Section StoreClaims.

(** C9.  With no current session, [addMessage] and [updateMessage] return
    at once: they complete normally and leave the whole state as it was
    (the session list, the current session, the loading flag, and even the
    clock is not read), so no session is created and no message is added or
    changed. *)
Theorem no_current_session_noop (w : World) (messageData : MessageData)
    (messageId : string) (updates : Updates) :
  currentSession (chat w) = None ->
  addMessage messageData w = (Normal tt, w) /\
  updateMessage messageId updates w = (Normal tt, w).
Proof.
  intros Hnone. unfold addMessage, updateMessage, bindS, get. simpl.
  rewrite Hnone. split; reflexivity.
Qed.

(** C6.  With a current session, [addMessage] appends exactly one message
    at the end of the current session: the count grows by one, the stored
    messages keep their positions and values, [updatedAt] is a fresh clock
    reading, the other fields of the session are kept; the session list
    keeps its length, every entry with another id is untouched and every
    entry with the current id becomes the updated session; the loading flag
    is kept. *)
Theorem addMessage_appends_one (w : World) (messageData : MessageData)
    (cur : ChatSession) :
  currentSession (chat w) = Some cur ->
  let w' := exec (addMessage messageData) w in
  exists (cur' : ChatSession) (m : ChatMessage),
    fst (addMessage messageData w) = Normal tt /\
    currentSession (chat w') = Some cur' /\
    s_messages cur' = (s_messages cur ++ [m])%list /\
    length (s_messages cur') = S (length (s_messages cur)) /\
    (forall i x, s_messages cur !! i = Some x -> s_messages cur' !! i = Some x) /\
    s_messages cur' !! length (s_messages cur) = Some m /\
    m_content m = d_content messageData /\
    m_role m = d_role messageData /\
    m_agentId m = d_agentId messageData /\
    m_metadata m = d_metadata messageData /\
    s_updatedAt cur' = DateObj (clock w (S (S (elapsed w)))) /\
    s_id cur' = s_id cur /\ s_title cur' = s_title cur /\
    s_createdAt cur' = s_createdAt cur /\ s_agentId cur' = s_agentId cur /\
    length (sessions (chat w')) = length (sessions (chat w)) /\
    (forall i s, sessions (chat w) !! i = Some s -> s_id s <> s_id cur ->
                 sessions (chat w') !! i = Some s) /\
    (forall i s, sessions (chat w) !! i = Some s -> s_id s = s_id cur ->
                 sessions (chat w') !! i = Some cur') /\
    isLoading (chat w') = isLoading (chat w).
Proof.
  intros Hcur w'. subst w'. unfold exec.
  rewrite (addMessage_run w messageData cur Hcur). simpl.
  exists (appended w messageData cur), (newMessageAt w messageData).
  repeat split; simpl; try reflexivity.
  - rewrite length_app. simpl. lia.
  - intros i x Hx. apply lookup_app_l_Some. exact Hx.
  - rewrite lookup_app_r by lia. rewrite Nat.sub_diag. reflexivity.
  - apply replace_session_length.
  - intros i s Hs Hne. exact (replace_session_other _ _ _ i s Hs Hne).
  - intros i s Hs He. exact (replace_session_same _ _ _ i s Hs He).
Qed.

(** C10.  [deleteSession sessionId] keeps exactly the sessions whose id
    differs from [sessionId], unchanged and in their order, drops all the
    others, and clears the current session when its id is [sessionId],
    leaving it as it was otherwise. *)
Theorem deleteSession_frame (w : World) (sessionId : string) :
  let w' := exec (deleteSession sessionId) w in
  fst (deleteSession sessionId w) = Normal tt /\
  (forall s, In s (sessions (chat w')) <->
             In s (sessions (chat w)) /\ s_id s <> sessionId) /\
  sublist (sessions (chat w')) (sessions (chat w)) /\
  (length (sessions (chat w'))
   + length (List.filter (fun s => String.eqb (s_id s) sessionId) (sessions (chat w)))
   = length (sessions (chat w)))%nat /\
  (forall cur, currentSession (chat w) = Some cur -> s_id cur = sessionId ->
               currentSession (chat w') = None) /\
  (forall cur, currentSession (chat w) = Some cur -> s_id cur <> sessionId ->
               currentSession (chat w') = Some cur) /\
  (currentSession (chat w) = None -> currentSession (chat w') = None) /\
  isLoading (chat w') = isLoading (chat w).
Proof.
  simpl.
  split; [reflexivity|].
  split.
  { intros s. rewrite filter_In, negb_true_iff, String.eqb_neq. reflexivity. }
  split; [apply filter_sublist|].
  split.
  { rewrite <- (filter_split_length
                  (fun s => negb (String.eqb (s_id s) sessionId))
                  (sessions (chat w))).
    f_equal. f_equal. apply filter_ext. intros s. rewrite negb_involutive.
    reflexivity. }
  split.
  { intros cur Hcur He. rewrite Hcur. apply String.eqb_eq in He.
    rewrite He. reflexivity. }
  split.
  { intros cur Hcur Hne. rewrite Hcur. apply String.eqb_neq in Hne.
    rewrite Hne. reflexivity. }
  split; [|reflexivity].
  intros Hnone. rewrite Hnone. reflexivity.
Qed.

End StoreClaims.

Lemma no_current_session_noop_witness :
  currentSession (chat idleWorld) = None /\
  addMessage userMessageData idleWorld = (Normal tt, idleWorld) /\
  updateMessage "msg_1700000000000" (errorUpdates NotAnError) idleWorld
    = (Normal tt, idleWorld).
Proof.
  split; [reflexivity|].
  apply (no_current_session_noop idleWorld userMessageData
           "msg_1700000000000" (errorUpdates NotAnError)).
  reflexivity.
Defined.

Lemma addMessage_appends_one_witness :
  exists cur' m,
    currentSession (chat (exec (addMessage userMessageData) sampleWorld)) = Some cur' /\
    s_messages cur' = [m] /\
    m_content m = JStr "Show P&L" /\
    length (sessions (chat (exec (addMessage userMessageData) sampleWorld))) = 1%nat.
Proof.
  destruct (addMessage_appends_one sampleWorld userMessageData sampleSession eq_refl)
    as (cur' & m & _ & Hcur & Hmsgs & _ & _ & _ & Hcontent & _ & _ & _ & _ & _ & _
        & _ & _ & Hlen & _).
  exists cur', m. repeat split; assumption.
Defined.

(** C6 as stated fails: a session other than the current one is rewritten
    by [addMessage] when it carries the current session's id.  In
    [twinWorld] the list holds the current session and, after it, an older
    session with one message and the same id; adding a message replaces that
    older entry by the updated current session. *)
Lemma addMessage_same_id_counterexample :
  ~ (forall (w : World) (messageData : MessageData) (cur s : ChatSession) (i : nat),
       currentSession (chat w) = Some cur ->
       sessions (chat w) !! i = Some s -> s <> cur ->
       sessions (chat (exec (addMessage messageData) w)) !! i = Some s).
Proof.
  intros H.
  specialize (H twinWorld placeholderData newerTwin olderTwin 1%nat eq_refl eq_refl).
  assert (Hne : olderTwin <> newerTwin) by discriminate.
  specialize (H Hne). vm_compute in H. discriminate H.
Qed.

Lemma deleteSession_frame_witness :
  currentSession (chat (exec (deleteSession "session_1699999990000") sampleWorld)) = None /\
  currentSession (chat (exec (deleteSession "session_42") sampleWorld))
    = Some sampleSession /\
  sessions (chat (exec (deleteSession "session_42") sampleWorld)) !! 0%nat
    = Some sampleSession.
Proof.
  destruct (deleteSession_frame sampleWorld "session_1699999990000")
    as (_ & _ & _ & _ & Hdel & _).
  destruct (deleteSession_frame sampleWorld "session_42")
    as (_ & Hin & _ & _ & _ & Hkeep & _).
  split; [apply (Hdel sampleSession); reflexivity|].
  split; [apply (Hkeep sampleSession); [reflexivity | discriminate]|].
  assert (Hmem : In sampleSession
                   (sessions (chat (exec (deleteSession "session_42") sampleWorld)))).
  { apply Hin. split; [left; reflexivity | discriminate]. }
  destruct Hmem as [Heq|[]]. reflexivity.
Defined.

(** ** The agent store *)

Section AgentStoreClaims.

(** C7.  [updateAgentStatus agentId status] keeps the length and order of
    the agent list; an agent with another id is unchanged; an agent with
    that id gets the new status and keeps every other field; the selected
    agent gets the new status (and keeps its other fields) when its id is
    [agentId], and is unchanged otherwise. *)
Theorem updateAgentStatus_frame (agentId : string) (status : AgentStatus)
    (state : AgentStore) :
  let state' := updateAgentStatus agentId status state in
  length (agents state') = length (agents state) /\
  (forall i a, agents state !! i = Some a -> a_id a <> agentId ->
               agents state' !! i = Some a) /\
  (forall i a, agents state !! i = Some a -> a_id a = agentId ->
               exists a', agents state' !! i = Some a' /\
                          a_status a' = status /\ same_but_status a a') /\
  (forall sel, selectedAgent state = Some sel -> a_id sel = agentId ->
               exists sel', selectedAgent state' = Some sel' /\
                            a_status sel' = status /\ same_but_status sel sel') /\
  (forall sel, selectedAgent state = Some sel -> a_id sel <> agentId ->
               selectedAgent state' = Some sel) /\
  (selectedAgent state = None -> selectedAgent state' = None).
Proof.
  simpl.
  split; [apply length_map|].
  split.
  { intros i a Hi Hne. rewrite lookup_map, Hi. simpl.
    apply String.eqb_neq in Hne. rewrite Hne. reflexivity. }
  split.
  { intros i a Hi He. rewrite lookup_map, Hi. simpl.
    apply String.eqb_eq in He. rewrite He.
    exists (with_status a status). repeat split. }
  split.
  { intros sel Hsel He. rewrite Hsel. apply String.eqb_eq in He. rewrite He.
    exists (with_status sel status). repeat split. }
  split.
  { intros sel Hsel Hne. rewrite Hsel. apply String.eqb_neq in Hne.
    rewrite Hne. reflexivity. }
  intros Hnone. rewrite Hnone. reflexivity.
Qed.

End AgentStoreClaims.

Lemma updateAgentStatus_frame_witness :
  let state' := updateAgentStatus "financial-intelligence" busy
                  (initialAgentStore sampleEnv) in
  (exists a', agents state' !! 1%nat = Some a' /\ a_status a' = busy /\
              a_name a' = "Financial Intelligence Agent") /\
  agents state' !! 0%nat = agents (initialAgentStore sampleEnv) !! 0%nat /\
  selectedAgent state' = selectedAgent (initialAgentStore sampleEnv).
Proof.
  destruct (updateAgentStatus_frame "financial-intelligence" busy
              (initialAgentStore sampleEnv))
    as (_ & Hother & Hsame & _ & Hsel & _).
  split; [|split].
  - destruct (Hsame 1%nat _ eq_refl eq_refl) as (a' & Hl & Hs & Hf).
    exists a'. split; [exact Hl|]. split; [exact Hs|].
    destruct Hf as (_ & Hn & _). exact Hn.
  - apply (Hother 0%nat); [reflexivity | discriminate].
  - apply Hsel; [reflexivity | discriminate].
Defined.

(** ** The send operation: what the reply becomes *)

Section ReplyContent.

Lemma responseContent_object (t : AgentType) (members : list (string * json)) :
  responseContent t (JObj members) =
    or_next (assoc (responseField t) members)
      (or_next (assoc (otherField t) members) (Normal (JStr apology))).
Proof.
  unfold responseContent, getProp, bindC, responseField, otherField.
  destruct (is_orchestrator t).
  - destruct (assoc "answer" members) as [a|]; simpl; [destruct (truthy a)|];
      reflexivity.
  - destruct (assoc "response" members) as [a|]; simpl; [destruct (truthy a)|];
      try reflexivity;
      destruct (assoc "answer" members) as [b|]; simpl;
      try destruct (truthy b); reflexivity.
Qed.

(** C1, as the code has it.  The request body is
    [{query, session_id, user_id, context}] for the orchestrator and
    [{query, conversation_id}] for every other agent type.  The content is
    the first TRUTHY value among the preferred field ([answer] for the
    orchestrator, [response] otherwise) and the other field; the apology is
    used when neither holds a truthy value (absent, [null], [false], [0] or
    the empty string) and the reply is not [null] itself, for which the
    read throws.  Hence a reply carrying a truthy payload under either
    name yields that payload. *)
Theorem responseContent_preference (t : AgentType)
    (originalQuery sessionId : string) (data : json) :
  (t = orchestrator ->
     responseField t = "answer" /\ otherField t = "response" /\
     keys (requestBody t originalQuery sessionId)
       = ["query"; "session_id"; "user_id"; "context"] /\
     member (requestBody t originalQuery sessionId) "query" = Some (JStr originalQuery) /\
     member (requestBody t originalQuery sessionId) "session_id" = Some (JStr sessionId)) /\
  (t <> orchestrator ->
     responseField t = "response" /\ otherField t = "answer" /\
     keys (requestBody t originalQuery sessionId) = ["query"; "conversation_id"] /\
     member (requestBody t originalQuery sessionId) "query" = Some (JStr originalQuery) /\
     member (requestBody t originalQuery sessionId) "conversation_id"
       = Some (JStr sessionId)) /\
  (forall v, member data (responseField t) = Some v -> truthy v = true ->
             responseContent t data = Normal v) /\
  (forall v, truthy_opt (member data (responseField t)) = false ->
             member data (otherField t) = Some v -> truthy v = true ->
             responseContent t data = Normal v) /\
  (data <> JNull ->
   truthy_opt (member data "answer") = false ->
   truthy_opt (member data "response") = false ->
   responseContent t data = Normal (JStr apology)) /\
  (forall v, truthy v = true -> carries_payload data v ->
             responseContent t data = Normal v) /\
  (exists e, responseContent t JNull = Throw e).
Proof.
  split; [intros ->; repeat split|].
  split; [intros Ht; destruct t; try congruence; repeat split|].
  assert (Hpref : forall v, member data (responseField t) = Some v ->
                            truthy v = true -> responseContent t data = Normal v).
  { intros v Hm Hv. destruct data; try discriminate. simpl in Hm.
    rewrite responseContent_object, Hm. simpl. rewrite Hv. reflexivity. }
  assert (Hother : forall v, truthy_opt (member data (responseField t)) = false ->
                             member data (otherField t) = Some v -> truthy v = true ->
                             responseContent t data = Normal v).
  { intros v Hf Hm Hv. destruct data; try discriminate. simpl in Hf, Hm.
    rewrite responseContent_object, Hm.
    destruct (assoc (responseField t) members) as [a|]; simpl in *.
    - rewrite Hf, Hv. reflexivity.
    - rewrite Hv. reflexivity. }
  split; [exact Hpref|]. split; [exact Hother|].
  split.
  { intros Hnull Ha Hr. destruct data; try congruence; try reflexivity.
    simpl in Ha, Hr. rewrite responseContent_object.
    unfold responseField, otherField. unfold truthy_opt in Ha, Hr.
    destruct (is_orchestrator t);
      destruct (assoc "answer" members) as [a|];
      destruct (assoc "response" members) as [b|]; simpl;
      rewrite ?Ha, ?Hr; reflexivity. }
  split.
  { intros v Hv [[Ha Hr]|[Hr Ha]]; unfold responseField, otherField in *;
      destruct (is_orchestrator t).
    - apply Hpref; assumption.
    - apply Hother; [rewrite Hr; reflexivity | assumption | assumption].
    - apply Hother; [rewrite Ha; reflexivity | assumption | assumption].
    - apply Hpref; assumption. }
  eexists. reflexivity.
Qed.

Lemma responseContent_preference_witness :
  responseContent financial (JObj [("answer", JStr "Revenue is up.")])
    = Normal (JStr "Revenue is up.") /\
  responseContent orchestrator (JObj [("response", JStr "Revenue is up.")])
    = Normal (JStr "Revenue is up.") /\
  responseContent orchestrator (JObj [("status", JStr "ok")])
    = Normal (JStr apology).
Proof.
  split; [|split].
  - destruct (responseContent_preference financial "q" "s"
                (JObj [("answer", JStr "Revenue is up.")]))
      as (_ & _ & _ & _ & _ & H & _).
    apply H; [reflexivity|]. left. split; reflexivity.
  - destruct (responseContent_preference orchestrator "q" "s"
                (JObj [("response", JStr "Revenue is up.")]))
      as (_ & _ & _ & H & _).
    apply H; reflexivity.
  - destruct (responseContent_preference orchestrator "q" "s"
                (JObj [("status", JStr "ok")]))
      as (_ & _ & _ & _ & H & _).
    apply H; [discriminate | reflexivity | reflexivity].
Defined.

(** C1 as stated fails: a reply whose payload is the empty string under
    [answer] does not yield that payload; the apology is shown instead. *)
Lemma empty_payload_counterexample :
  ~ (forall (t : AgentType) (data v : json),
       carries_payload data v -> responseContent t data = Normal v).
Proof.
  intros H.
  specialize (H orchestrator (JObj [("answer", JStr "")]) (JStr "")).
  assert (Hc : carries_payload (JObj [("answer", JStr "")]) (JStr "")).
  { left. split; reflexivity. }
  specialize (H Hc). vm_compute in H. discriminate H.
Qed.

End ReplyContent.

(** ** The send operation: what the session shows afterwards *)

Section SendClaims.

(** C2, evaluated.  The orchestrator answers 200 with
    [{answer: "Revenue is up."}]; the content is extracted, yet the session
    ends with the user's message and the placeholder exactly as
    [addMessage] built it: still the loading text, still [loading: true].
    The update was addressed to [msg_loading_1700000000000], an id no
    message has. *)
Theorem successful_send_leaves_placeholder :
  let w' := exec (handleSendMessage net_ok) sampleWorld in
  option_map (fun agent =>
                fetchData net_ok agent
                  (requestBody (a_type agent) "Show P&L" "session_1699999990000"))
             (selectedAgent (agentStore sampleWorld)) = Some (Normal okReply) /\
  responseContent orchestrator okReply = Normal (JStr "Revenue is up.") /\
  option_map s_messages (currentSession (chat w')) =
    Some [ sentUserMessage; sentPlaceholder ] /\
  m_content sentPlaceholder
    = JStr "Coordinating with specialized agents to provide comprehensive insights..." /\
  option_map md_loading (m_metadata sentPlaceholder) = Some (Some true).
Proof. vm_compute. repeat split. Qed.

(** C3, evaluated.  The agent answers HTTP 500.  The operation completes
    normally and the store's loading flag ends false, but the session shows
    no error message: the placeholder still carries the loading text and
    [loading: true], because the error update (whose content would read
    "... error while processing your request: API Error: 500") was
    addressed to an id no message has. *)
Theorem failed_send_shows_no_error :
  let w' := exec (handleSendMessage net_500) sampleWorld in
  fst (handleSendMessage net_500 sampleWorld) = Normal tt /\
  isLoading (chat w') = false /\
  u_content (errorUpdates (ErrorObj "API Error: 500")) =
    Some (JStr "I apologize, but I encountered an error while processing your request: API Error: 500") /\
  option_map s_messages (currentSession (chat w')) =
    Some [ sentUserMessage; sentPlaceholder ] /\
  option_map md_loading (m_metadata sentPlaceholder) = Some (Some true) /\
  option_map md_error (m_metadata sentPlaceholder) = Some None.
Proof. vm_compute. repeat split. Qed.

(** C4, evaluated.  The two messages one send adds, the user's and the
    placeholder, are created within the same millisecond and receive the
    same id; so do two [addMessage] calls in immediate succession. *)
Theorem same_millisecond_same_id :
  let w' := exec (handleSendMessage net_ok) sampleWorld in
  let w2 := exec (letS _ := addMessage userMessageData in
                  addMessage placeholderData) sampleWorld in
  (exists u p, option_map s_messages (currentSession (chat w')) = Some [u; p] /\
               u <> p /\ m_id u = m_id p) /\
  (exists u p, option_map s_messages (currentSession (chat w2)) = Some [u; p] /\
               u <> p /\ m_id u = m_id p).
Proof.
  split; eexists _, _; (split; [vm_compute; reflexivity|]);
    (split; [discriminate | reflexivity]).
Qed.

End SendClaims.

(** ** Persistence *)

Section PersistClaims.

Lemma json_date_idem (d : DateSlot) : json_date (json_date d) = json_date d.
Proof. destruct d; reflexivity. Qed.

Lemma json_message_idem (m : ChatMessage) :
  json_message (json_message m) = json_message m.
Proof. unfold json_message. simpl. rewrite json_date_idem. reflexivity. Qed.

Lemma json_session_idem (s : ChatSession) :
  json_session (json_session s) = json_session s.
Proof.
  unfold json_session. simpl. rewrite !json_date_idem, map_map.
  f_equal. apply map_ext. exact json_message_idem.
Qed.

Lemma find_json_session (sessionId : string) (l : list ChatSession) :
  List.find (fun s => String.eqb (s_id s) sessionId) (map json_session l)
  = option_map json_session
      (List.find (fun s => String.eqb (s_id s) sessionId) l).
Proof.
  induction l as [|s l IH]; simpl; [reflexivity|].
  destruct (String.eqb (s_id s) sessionId); [reflexivity | exact IH].
Qed.

(** C5, as the code has it.  After a write and a restart, reading a session
    id returns the session that was written with the same id, title, agent
    and the same messages in the same order, each with the same id,
    content, role, agent and metadata; but every date slot (the message
    timestamps, [createdAt], [updatedAt]) comes back as the ISO text of the
    date, not as the date.  The current session is restored the same way,
    the loading flag restarts as false, and a state that has been read
    back once reloads unchanged. *)
Theorem reload_roundtrip (state : ChatStore) (sessionId : string) :
  readSession sessionId (reload state)
    = option_map json_session (readSession sessionId state) /\
  currentSession (reload state) = option_map json_session (currentSession state) /\
  length (sessions (reload state)) = length (sessions state) /\
  isLoading (reload state) = false /\
  (forall s,
     s_id (json_session s) = s_id s /\
     s_title (json_session s) = s_title s /\
     s_agentId (json_session s) = s_agentId s /\
     s_createdAt (json_session s) = json_date (s_createdAt s) /\
     s_updatedAt (json_session s) = json_date (s_updatedAt s) /\
     length (s_messages (json_session s)) = length (s_messages s) /\
     forall i m, s_messages s !! i = Some m ->
       exists m', s_messages (json_session s) !! i = Some m' /\
                  m_id m' = m_id m /\ m_content m' = m_content m /\
                  m_role m' = m_role m /\ m_agentId m' = m_agentId m /\
                  m_metadata m' = m_metadata m /\
                  m_timestamp m' = json_date (m_timestamp m)) /\
  (forall ms, json_date (DateObj ms) = DateText (toISOString ms)) /\
  (forall iso, json_date (DateText iso) = DateText iso) /\
  reload (reload state) = reload state.
Proof.
  split; [apply find_json_session|].
  split; [reflexivity|].
  split; [apply length_map|].
  split; [reflexivity|].
  split.
  { intros s. repeat split; try reflexivity.
    - apply length_map.
    - intros i m Hm. exists (json_message m). simpl.
      rewrite lookup_map, Hm. repeat split. }
  split; [reflexivity|]. split; [reflexivity|].
  unfold reload, rehydrate, stored, partialize. simpl. f_equal.
  - destruct (currentSession state); simpl; [|reflexivity].
    rewrite json_session_idem. reflexivity.
  - rewrite map_map. apply map_ext. exact json_session_idem.
Qed.

Lemma reload_roundtrip_witness :
  exists m',
    s_messages (json_session sampleHistory) !! 1%nat = Some m' /\
    m_id m' = "msg_1700000000000" /\
    m_content m' = m_content sentPlaceholder /\
    m_timestamp m' = DateText "2023-11-14T22:13:20.000Z".
Proof.
  destruct (reload_roundtrip sampleStore "session_1699999990000")
    as (_ & _ & _ & _ & H & _).
  destruct (H sampleHistory) as (_ & _ & _ & _ & _ & _ & Hm).
  destruct (Hm 1%nat sentPlaceholder eq_refl)
    as (m' & Hl & Hid & Hc & _ & _ & _ & Ht).
  exists m'. repeat split; assumption.
Defined.

(** C5 as stated fails: the session read back after a restart is not the
    session that was written, its dates have become text. *)
Lemma reload_not_identity_counterexample :
  ~ (forall (state : ChatStore) (sessionId : string) (s : ChatSession),
       readSession sessionId state = Some s ->
       readSession sessionId (reload state) = Some s).
Proof.
  intros H.
  specialize (H sampleStore "session_1699999990000" sampleHistory eq_refl).
  vm_compute in H. discriminate H.
Qed.

End PersistClaims.

(** ** The intent classifier *)

(** *** The tie-break picks one agent, whatever the registration order *)

Section StringOrder.






End StringOrder.

Section TieBreak.

Variable score : string -> RegisteredAgent -> nat.
Variable query : string.









End TieBreak.

Section ClassifierClaims.

Variable score : string -> RegisteredAgent -> nat.
Variable threshold : nat.

Lemma append_turn_registry (sessionId : string) (t : Turn) (o : Orchestrator) :
  registry (append_turn sessionId t o) = registry o.
Proof. reflexivity. Qed.





End ClassifierClaims.


(** The scenarios of the specification, on a two-agent registry. *)
Example classify_single :
  classify overlap_score 1 sampleRegistry "Show me our lead generation performance" None
  = {| c_type := single_agent; c_target_agents := ["sales_marketing"]; c_steps := [] |}.
Proof. reflexivity. Qed.

Example classify_collaborative :
  classify overlap_score 1 sampleRegistry
    "Analyze our financial performance and also create a marketing strategy" None
  = {| c_type := collaborative;
       c_target_agents := ["financial_intelligence"; "sales_marketing"];
       c_steps := [] |}.
Proof. reflexivity. Qed.

Example classify_sequential :
  classify overlap_score 1 sampleRegistry
    "First show me lead generation performance then create an email campaign" None
  = {| c_type := sequential;
       c_target_agents := ["sales_marketing"; "sales_marketing"];
       c_steps :=
         [ {| step_text := "show me lead generation performance";
              step_target := Some "sales_marketing";
              step_depends_on := None |};
           {| step_text := "create an email campaign";
              step_target := Some "sales_marketing";
              step_depends_on := Some 0%nat |} ] |}.
Proof. reflexivity. Qed.

(** * Further properties *)

(** ** The chat store: sessions *)

Section SessionFacts.

Lemma createSession_run (agentId : string) (w : World) :
  createSession agentId w =
    (Normal tt,
     {| chat := {| currentSession := Some (newSessionAt w agentId);
                   sessions := newSessionAt w agentId :: sessions (chat w);
                   isLoading := isLoading (chat w) |};
        agentStore := agentStore w;
        inputValue := inputValue w;
        clock := clock w;
        elapsed := S (S (S (S (elapsed w))));
        localeDate := localeDate w |}).
Proof. reflexivity. Qed.

Lemma find_id_cons_same (s : ChatSession) (l : list ChatSession) :
  List.find (fun x => String.eqb (s_id x) (s_id s)) (s :: l) = Some s.
Proof. simpl. rewrite String.eqb_refl. reflexivity. Qed.

Lemma find_replace_session (target updated : ChatSession) (l : list ChatSession) :
  s_id updated = s_id target ->
  List.find (fun x => String.eqb (s_id x) (s_id target)) l = Some target ->
  List.find (fun x => String.eqb (s_id x) (s_id updated))
            (replace_session target updated l) = Some updated.
Proof.
  intros Hid. rewrite Hid. induction l as [|x l IH]; simpl; [discriminate|].
  destruct (String.eqb (s_id x) (s_id target)) eqn:Hx.
  - intros _. rewrite Hid, String.eqb_refl. reflexivity.
  - rewrite Hx. exact IH.
Qed.

Lemma find_filter_other (sessionId : string) (cur : ChatSession)
    (l : list ChatSession) :
  s_id cur <> sessionId ->
  List.find (fun x => String.eqb (s_id x) (s_id cur))
            (List.filter (fun s => negb (String.eqb (s_id s) sessionId)) l)
  = List.find (fun x => String.eqb (s_id x) (s_id cur)) l.
Proof.
  intros Hne. induction l as [|x l IH]; simpl; [reflexivity|].
  destruct (String.eqb (s_id x) sessionId) eqn:Hx; simpl.
  - apply String.eqb_eq in Hx.
    destruct (String.eqb (s_id x) (s_id cur)) eqn:Hc; [|exact IH].
    apply String.eqb_eq in Hc. congruence.
  - destruct (String.eqb (s_id x) (s_id cur)); [reflexivity | exact IH].
Qed.

Lemma addMessage_none (w : World) (messageData : MessageData) :
  currentSession (chat w) = None -> addMessage messageData w = (Normal tt, w).
Proof.
  intros Hnone. unfold addMessage, bindS, get. simpl. rewrite Hnone. reflexivity.
Qed.

Lemma updateMessage_none (w : World) (messageId : string) (updates : Updates) :
  currentSession (chat w) = None ->
  updateMessage messageId updates w = (Normal tt, w).
Proof.
  intros Hnone. unfold updateMessage, bindS, get. simpl. rewrite Hnone. reflexivity.
Qed.

(** Every action of the chat store completes normally and keeps the current
    session in step with the list. *)
Lemma action_keeps_current_listed (a : ChatAction) (w : World) :
  current_first_listed (chat w) ->
  fst (run a w) = Normal tt /\
  current_first_listed (chat (exec (run a) w)).
Proof.
  intros Hinv. unfold current_first_listed in *.
  destruct a as [agentId|sessionId|messageData|messageId updates| |sessionId|loading];
    simpl run.
  - split; [reflexivity|]. unfold exec. rewrite createSession_run.
    cbn [snd chat currentSession sessions]. apply find_id_cons_same.
  - unfold exec, setCurrentSession, bindS, get. simpl.
    destruct (List.find _ (sessions (chat w))) as [s|] eqn:Hf; simpl.
    + split; [reflexivity|].
      pose proof (find_some _ _ Hf) as [_ Hid]. apply String.eqb_eq in Hid.
      rewrite Hid. exact Hf.
    + split; [reflexivity | exact Hinv].
  - destruct (currentSession (chat w)) as [cur|] eqn:Hcur.
    + unfold exec. rewrite (addMessage_run w messageData cur Hcur).
      split; [reflexivity|]. cbn [snd chat currentSession sessions].
      apply find_replace_session; [reflexivity | exact Hinv].
    + unfold exec. rewrite (addMessage_none w messageData Hcur).
      split; [reflexivity|]. simpl. rewrite Hcur. exact I.
  - destruct (currentSession (chat w)) as [cur|] eqn:Hcur.
    + unfold exec. rewrite (updateMessage_run w messageId updates cur Hcur).
      split; [reflexivity|]. cbn [snd chat currentSession sessions].
      apply find_replace_session; [reflexivity | exact Hinv].
    + unfold exec. rewrite (updateMessage_none w messageId updates Hcur).
      split; [reflexivity|]. simpl. rewrite Hcur. exact I.
  - split; [reflexivity | exact I].
  - split; [reflexivity|]. simpl.
    destruct (currentSession (chat w)) as [cur|]; [|exact I].
    destruct (String.eqb (s_id cur) sessionId) eqn:Hc; [exact I|].
    apply String.eqb_neq in Hc. rewrite find_filter_other by exact Hc. exact Hinv.
  - split; [reflexivity | exact Hinv].
Qed.

Lemma run_all_keeps_current_listed (l : list ChatAction) (w : World) :
  current_first_listed (chat w) -> current_first_listed (chat (run_all l w)).
Proof.
  revert w. induction l as [|a l IH]; intros w Hinv; simpl; [exact Hinv|].
  apply IH. apply action_keeps_current_listed. exact Hinv.
Qed.

(** X1.  Every action of the chat store keeps the current session in step
    with the list.  If the current session is the first list entry with its
    id (as in the empty store), it still is after any sequence of store
    actions, and selecting the current session's id again then changes
    nothing in the store. *)
Theorem reachable_current_listed (l : list ChatAction) (w : World) :
  current_first_listed (chat w) ->
  let w' := run_all l w in
  current_first_listed (chat w') /\
  forall cur, currentSession (chat w') = Some cur ->
              chat (exec (setCurrentSession (s_id cur)) w') = chat w'.
Proof.
  intros Hinit w'.
  assert (Hinv : current_first_listed (chat w')).
  { apply run_all_keeps_current_listed. exact Hinit. }
  split; [exact Hinv|].
  intros cur Hcur. unfold current_first_listed in Hinv. rewrite Hcur in Hinv.
  unfold exec, setCurrentSession, bindS, get. simpl. rewrite Hinv. simpl.
  destruct (chat w') as [c ss il]. simpl in *. rewrite Hcur. reflexivity.
Qed.

Lemma filter_id_fresh (sessionId : string) (l : list ChatSession) :
  (forall s, In s l -> s_id s <> sessionId) ->
  List.filter (fun s => negb (String.eqb (s_id s) sessionId)) l = l.
Proof.
  induction l as [|x l IH]; simpl; intros Hfresh; [reflexivity|].
  assert (Hx : String.eqb (s_id x) sessionId = false)
    by (apply String.eqb_neq, Hfresh; auto).
  rewrite Hx. simpl. rewrite IH by auto. reflexivity.
Qed.

(** X2.  Creating a session and deleting it again restores the session list
    when the new id was not in use, but not the selection: no session is
    current afterwards, even if one was before. *)
Theorem create_then_delete (agentId : string) (w : World) :
  (forall s, In s (sessions (chat w)) ->
             s_id s <> "session_" ++ showZ (clock w (elapsed w))) ->
  let created := exec (createSession agentId) w in
  let w' := exec (deleteSession ("session_" ++ showZ (clock w (elapsed w)))) created in
  sessions (chat w') = sessions (chat w) /\
  currentSession (chat w') = None /\
  isLoading (chat w') = isLoading (chat w).
Proof.
  intros Hfresh created w'. subst created w'. unfold exec.
  rewrite createSession_run. cbn.
  rewrite String.eqb_refl. simpl.
  rewrite filter_id_fresh by exact Hfresh. repeat split.
Qed.

(** X3.  [setCurrentSession] never touches the list or the loading flag.
    When some session has the id, the first such session becomes current;
    when none has it, nothing changes at all: the previous current session
    stays. *)
Theorem setCurrentSession_lookup (sessionId : string) (w : World) :
  let w' := exec (setCurrentSession sessionId) w in
  sessions (chat w') = sessions (chat w) /\
  isLoading (chat w') = isLoading (chat w) /\
  ((exists s, In s (sessions (chat w)) /\ s_id s = sessionId) ->
   exists s i, currentSession (chat w') = Some s /\ s_id s = sessionId /\
               sessions (chat w) !! i = Some s /\
               forall j s', (j < i)%nat -> sessions (chat w) !! j = Some s' ->
                            s_id s' <> sessionId) /\
  ((forall s, In s (sessions (chat w)) -> s_id s <> sessionId) -> w' = w).
Proof.
  unfold exec, setCurrentSession, bindS, get. simpl.
  destruct (List.find _ (sessions (chat w))) as [s|] eqn:Hf; simpl.
  - split; [reflexivity|]. split; [reflexivity|]. split.
    + intros _. clear -Hf. revert Hf.
      induction (sessions (chat w)) as [|x l IH]; simpl; [discriminate|].
      destruct (String.eqb (s_id x) sessionId) eqn:Hx.
      * intros [= <-]. apply String.eqb_eq in Hx.
        exists x, 0%nat. repeat split; auto. intros j s' Hj. lia.
      * intros Hf. destruct (IH Hf) as (s0 & i & Hc & Hid & Hl & Hfirst).
        exists s0, (S i). repeat split; auto.
        intros [|j] s' Hj; simpl.
        -- intros [= <-]. apply String.eqb_neq. exact Hx.
        -- apply Hfirst. lia.
    + intros Hnone. apply find_some in Hf as [Hin Hid].
      apply String.eqb_eq in Hid. exfalso. exact (Hnone s Hin Hid).
  - split; [reflexivity|]. split; [reflexivity|]. split; [|reflexivity].
    intros (s & Hin & Hid). exfalso.
    pose proof (find_none _ _ Hf s Hin) as Hn. simpl in Hn.
    apply String.eqb_neq in Hn. contradiction.
Qed.

(** X4.  Messages added one after the other appear at the end of the
    current session in the order of the calls, after the messages that were
    there; the session keeps its id. *)
Theorem addMessage_sequence (ds : list MessageData) (w : World) (cur : ChatSession) :
  currentSession (chat w) = Some cur ->
  exists cur',
    currentSession (chat (run_all (map AddMessage ds) w)) = Some cur' /\
    s_id cur' = s_id cur /\
    map m_content (s_messages cur')
      = (map m_content (s_messages cur) ++ map d_content ds)%list /\
    map m_role (s_messages cur')
      = (map m_role (s_messages cur) ++ map d_role ds)%list /\
    length (s_messages cur') = (length (s_messages cur) + length ds)%nat.
Proof.
  revert w cur. induction ds as [|d ds IH]; intros w cur Hcur; simpl.
  - exists cur. rewrite !app_nil_r. repeat split; auto.
  - unfold exec. rewrite (addMessage_run w d cur Hcur). cbn [snd].
    match goal with
    | |- context [run_all _ ?w1] =>
        destruct (IH w1 (appended w d cur) eq_refl)
          as (cur' & Hc & Hid & Hcont & Hrole & Hlen)
    end.
    exists cur'. split; [exact Hc|]. split; [exact Hid|].
    cbn [appended s_messages] in Hcont, Hrole, Hlen.
    rewrite Hcont, Hrole, Hlen, !map_app, !length_app. simpl.
    rewrite <- !app_assoc. simpl. repeat split. lia.
Qed.

Lemma filter_filter_comm (f g : ChatSession -> bool) (l : list ChatSession) :
  List.filter f (List.filter g l) = List.filter g (List.filter f l).
Proof.
  induction l as [|x l IH]; simpl; [reflexivity|].
  destruct (g x) eqn:Hg, (f x) eqn:Hf; simpl; rewrite ?Hg, ?Hf, IH; reflexivity.
Qed.

Lemma filter_idem (f : ChatSession -> bool) (l : list ChatSession) :
  List.filter f (List.filter f l) = List.filter f l.
Proof.
  induction l as [|x l IH]; simpl; [reflexivity|].
  destruct (f x) eqn:Hf; simpl; rewrite ?Hf, IH; reflexivity.
Qed.

(** X5.  Deleting is idempotent and order-independent: deleting the same id
    twice is deleting it once, and two deletions give the same store in
    either order. *)
Theorem deleteSession_algebra (a b : string) (w : World) :
  exec (deleteSession a) (exec (deleteSession a) w) = exec (deleteSession a) w /\
  exec (deleteSession a) (exec (deleteSession b) w)
    = exec (deleteSession b) (exec (deleteSession a) w).
Proof.
  unfold exec, deleteSession, set, with_chat. simpl. split.
  - f_equal. f_equal.
    + destruct (currentSession (chat w)) as [cur|]; [|reflexivity].
      destruct (String.eqb (s_id cur) a) eqn:Ha; [reflexivity|].
      rewrite Ha. reflexivity.
    + apply filter_idem.
  - f_equal. f_equal.
    + destruct (currentSession (chat w)) as [cur|]; [|reflexivity].
      destruct (String.eqb (s_id cur) a) eqn:Ha,
               (String.eqb (s_id cur) b) eqn:Hb; rewrite ?Ha, ?Hb; reflexivity.
    + apply filter_filter_comm.
Qed.

(** X6.  [updateMessage] keeps the number and the order of the messages of
    the current session: a message with another id is unchanged, a message
    with the id receives the updates, and when the updates carry no id the
    ids of all messages are as before. *)
Theorem updateMessage_frame (messageId : string) (updates : Updates)
    (w : World) (cur : ChatSession) :
  currentSession (chat w) = Some cur ->
  exists cur',
    currentSession (chat (exec (updateMessage messageId updates) w)) = Some cur' /\
    length (s_messages cur') = length (s_messages cur) /\
    (forall i m, s_messages cur !! i = Some m -> m_id m <> messageId ->
                 s_messages cur' !! i = Some m) /\
    (forall i m, s_messages cur !! i = Some m -> m_id m = messageId ->
                 s_messages cur' !! i = Some (spread m updates)) /\
    (u_id updates = None ->
     map m_id (s_messages cur') = map m_id (s_messages cur)) /\
    s_id cur' = s_id cur /\
    length (sessions (chat (exec (updateMessage messageId updates) w)))
      = length (sessions (chat w)).
Proof.
  intros Hcur. unfold exec. rewrite (updateMessage_run w _ _ cur Hcur).
  cbn [snd chat currentSession sessions].
  exists (updatedWith w messageId updates cur).
  split; [reflexivity|]. cbn [updatedWith s_messages s_id].
  split; [apply length_map|].
  split.
  { intros i m Hi Hne. rewrite lookup_map, Hi. simpl.
    apply String.eqb_neq in Hne. rewrite Hne. reflexivity. }
  split.
  { intros i m Hi He. rewrite lookup_map, Hi. simpl.
    apply String.eqb_eq in He. rewrite He. reflexivity. }
  split.
  { intros Hnoid. rewrite map_map. apply map_ext. intros m.
    destruct (String.eqb (m_id m) messageId); [|reflexivity].
    unfold spread. simpl. rewrite Hnoid. reflexivity. }
  split; [reflexivity | apply replace_session_length].
Qed.


End SessionFacts.

Lemma reachable_current_listed_witness :
  let w' := run_all [ CreateSession "central-orchestrator";
                      AddMessage userMessageData;
                      CreateSession "sales-marketing";
                      DeleteSession "session_42";
                      SetCurrentSession "session_1700000000000" ] idleWorld in
  current_first_listed (chat w') /\
  length (sessions (chat w')) = 2%nat.
Proof.
  split; [|reflexivity].
  apply (reachable_current_listed
           [ CreateSession "central-orchestrator"; AddMessage userMessageData;
             CreateSession "sales-marketing"; DeleteSession "session_42";
             SetCurrentSession "session_1700000000000" ] idleWorld).
  exact I.
Defined.

Lemma create_then_delete_witness :
  sessions (chat (exec (deleteSession "session_1700000000000")
                       (exec (createSession "sales-marketing") sampleWorld)))
    = [sampleSession] /\
  currentSession (chat (exec (deleteSession "session_1700000000000")
                             (exec (createSession "sales-marketing") sampleWorld)))
    = None.
Proof.
  destruct (create_then_delete "sales-marketing" sampleWorld) as (Hs & Hc & _).
  - intros s [<-|[]]. discriminate.
  - split; [exact Hs | exact Hc].
Defined.

Lemma setCurrentSession_lookup_witness :
  exec (setCurrentSession "session_42") sampleWorld = sampleWorld /\
  exists s, currentSession (chat (exec (setCurrentSession "session_1699999990000")
                                       sampleWorld)) = Some s /\
            s_id s = "session_1699999990000".
Proof.
  split.
  - destruct (setCurrentSession_lookup "session_42" sampleWorld) as (_ & _ & _ & H).
    apply H. intros s [<-|[]]. discriminate.
  - destruct (setCurrentSession_lookup "session_1699999990000" sampleWorld)
      as (_ & _ & H & _).
    destruct H as (s & i & Hc & Hid & _).
    + exists sampleSession. split; [left; reflexivity | reflexivity].
    + exists s. split; assumption.
Defined.

Lemma addMessage_sequence_witness :
  exists cur',
    currentSession (chat (run_all (map AddMessage [userMessageData; placeholderData])
                                  sampleWorld)) = Some cur' /\
    map m_role (s_messages cur') = [user; assistant] /\
    length (s_messages cur') = 2%nat.
Proof.
  destruct (addMessage_sequence [userMessageData; placeholderData]
              sampleWorld sampleSession eq_refl)
    as (cur' & Hc & _ & _ & Hrole & Hlen).
  exists cur'. split; [exact Hc|]. split; [exact Hrole | exact Hlen].
Defined.

Lemma updateMessage_frame_witness :
  let w := with_chat sampleWorld sampleStore in
  exists cur',
    currentSession (chat (exec (updateMessage "msg_1700000000000"
                                  (errorUpdates (ErrorObj "API Error: 500"))) w))
      = Some cur' /\
    length (s_messages cur') = 2%nat /\
    s_messages cur' !! 0%nat
      = Some (spread sentUserMessage (errorUpdates (ErrorObj "API Error: 500"))) /\
    map m_id (s_messages cur') = ["msg_1700000000000"; "msg_1700000000000"].
Proof.
  intros w.
  destruct (updateMessage_frame "msg_1700000000000"
              (errorUpdates (ErrorObj "API Error: 500")) w sampleHistory eq_refl)
    as (cur' & Hc & Hlen & _ & Hhit & Hids & _).
  exists cur'. split; [exact Hc|]. split; [exact Hlen|].
  split; [apply Hhit; reflexivity | apply Hids; reflexivity].
Defined.


Lemma consecutive_ids_equal_iff_witness :
  exists cur2 u p,
    currentSession (chat (exec (letS _ := addMessage userMessageData in
                                addMessage placeholderData) sampleWorld)) = Some cur2 /\
    s_messages cur2 = [u; p] /\ m_id u = m_id p.
Proof.
  destruct (consecutive_ids_equal_iff sampleWorld userMessageData placeholderData
              sampleSession eq_refl) as (cur2 & u & p & Hc & Hm & Hiff).
  exists cur2, u, p. split; [exact Hc|]. split; [exact Hm|].
  apply Hiff. reflexivity.
Defined.

(** ** White space *)

Section WhiteSpace.

Lemma byte_eq (c : ascii) (n : nat) :
  Nat.eqb (nat_of_ascii c) n = true -> c = ascii_of_nat n.
Proof.
  intros H. apply Nat.eqb_eq in H. rewrite <- H. symmetry.
  apply ascii_nat_embedding.
Qed.

Lemma byte_between (c : ascii) (lo hi : nat) :
  Nat.leb lo (nat_of_ascii c) = true -> Nat.leb (nat_of_ascii c) hi = true ->
  exists n, (lo <= n <= hi)%nat /\ c = ascii_of_nat n.
Proof.
  intros H1 H2. apply Nat.leb_le in H1, H2.
  exists (nat_of_ascii c). split; [lia|]. symmetry. apply ascii_nat_embedding.
Qed.

Ltac in_whitespace :=
  unfold whitespace; simpl; repeat (first [left; reflexivity | right]).

Lemma is_space_inv (c : ascii) :
  is_space c = true -> In (String c "") whitespace.
Proof.
  unfold is_space. intros H. apply orb_true_iff in H as [H|H].
  - apply byte_eq in H. subst. in_whitespace.
  - apply andb_true_iff in H as [H1 H2].
    destruct (byte_between c 9 13 H1 H2) as (n & Hn & ->).
    assert (n = 9 \/ n = 10 \/ n = 11 \/ n = 12 \/ n = 13)%nat
      as [->|[->|[->|[->| ->]]]] by lia; in_whitespace.
Qed.

Lemma is_space2_inv (c1 c2 : ascii) :
  is_space2 c1 c2 = true -> In (String c1 (String c2 "")) whitespace.
Proof.
  unfold is_space2. intros H. apply andb_true_iff in H as [H1 H2].
  apply byte_eq in H1, H2. subst. in_whitespace.
Qed.

Lemma is_space3_inv (c1 c2 c3 : ascii) :
  is_space3 c1 c2 c3 = true ->
  In (String c1 (String c2 (String c3 ""))) whitespace.
Proof.
  unfold is_space3. cbv zeta. intros H.
  repeat (apply orb_true_iff in H as [H|H]);
    repeat match goal with
           | H : (_ && _)%bool = true |- _ => apply andb_true_iff in H as [? ?]
           end;
    repeat match goal with
           | H : Nat.eqb (nat_of_ascii _) _ = true |- _ => apply byte_eq in H; subst
           end;
    try solve [in_whitespace].
  match goal with
  | H : (_ || _ || _ || _)%bool = true |- _ =>
      repeat (apply orb_true_iff in H as [H|H])
  end;
    repeat match goal with
           | H : (_ && _)%bool = true |- _ => apply andb_true_iff in H as [? ?]
           end;
    repeat match goal with
           | H : Nat.eqb (nat_of_ascii _) _ = true |- _ => apply byte_eq in H; subst
           end;
    try solve [in_whitespace].
  match goal with
  | H1 : Nat.leb 128 _ = true, H2 : Nat.leb _ 138 = true |- _ =>
      destruct (byte_between _ _ _ H1 H2) as (n & Hn & ->)
  end.
  assert (n = 128 \/ n = 129 \/ n = 130 \/ n = 131 \/ n = 132 \/ n = 133 \/
          n = 134 \/ n = 135 \/ n = 136 \/ n = 137 \/ n = 138)%nat
    as [->|[->|[->|[->|[->|[->|[->|[->|[->|[->| ->]]]]]]]]]] by lia;
    in_whitespace.
Qed.

Lemma blank_space_prefix (x s : string) :
  In x whitespace -> blank (x ++ s) = blank s.
Proof.
  unfold whitespace. simpl. intros H.
  repeat (destruct H as [<-|H]; [reflexivity|]). destruct H.
Qed.

Lemma blank_inv (s : string) :
  blank s = true ->
  s = "" \/ exists x r, In x whitespace /\ s = x ++ r /\ blank r = true.
Proof.
  intros H. destruct s as [|c1 r1]; [left; reflexivity | right].
  simpl in H. destruct (is_space c1) eqn:H1.
  { exists (String c1 ""), r1. split; [apply is_space_inv, H1|].
    split; [reflexivity | exact H]. }
  destruct r1 as [|c2 r2]; [discriminate|].
  destruct (is_space2 c1 c2) eqn:H2.
  { exists (String c1 (String c2 "")), r2. split; [apply is_space2_inv, H2|].
    split; [reflexivity | exact H]. }
  destruct r2 as [|c3 r3]; [discriminate|].
  destruct (is_space3 c1 c2 c3) eqn:H3; [|discriminate].
  exists (String c1 (String c2 (String c3 ""))), r3.
  split; [apply is_space3_inv, H3|]. split; [reflexivity | exact H].
Qed.

Lemma append_length (a b : string) :
  String.length (a ++ b) = (String.length a + String.length b)%nat.
Proof. induction a as [|c a IH]; simpl; [reflexivity | rewrite IH; reflexivity]. Qed.

Lemma whitespace_nonempty (x : string) :
  In x whitespace -> (0 < String.length x)%nat.
Proof.
  unfold whitespace. simpl. intros H.
  repeat (destruct H as [<-|H]; [simpl; lia|]). destruct H.
Qed.

Lemma concat_cons (x : string) (l : list string) :
  String.concat "" (x :: l) = x ++ String.concat "" l.
Proof.
  destruct l as [|y l]; simpl; [|reflexivity].
  induction x as [|c x IH]; simpl; [reflexivity | rewrite <- IH; reflexivity].
Qed.

(** The guard [!inputValue.trim()] holds exactly of the strings made of
    white space code points only. *)
Lemma blank_white_only (s : string) : blank s = true <-> white_only s.
Proof.
  split.
  - remember (String.length s) as n eqn:Hn. revert s Hn.
    induction n as [n IH] using lt_wf_ind. intros s Hn Hb.
    destruct (blank_inv s Hb) as [->|(x & r & Hx & -> & Hr)].
    + exists []. split; [constructor | reflexivity].
    + pose proof (whitespace_nonempty x Hx) as Hpos.
      rewrite append_length in Hn.
      destruct (IH (String.length r) ltac:(lia) r eq_refl Hr) as (l & Hl & ->).
      exists (x :: l). split; [constructor; assumption|].
      rewrite concat_cons. reflexivity.
  - intros (l & Hl & ->). induction Hl as [|x l Hx Hl IH]; [reflexivity|].
    rewrite concat_cons, blank_space_prefix by exact Hx. exact IH.
Qed.

Example blank_nbsp : blank (utf8 [194; 160]%nat) = true.
Proof. reflexivity. Qed.

Example blank_mixed :
  blank (" " ++ utf8 [227; 128; 128; 9; 239; 187; 191; 226; 128; 169]%nat) = true.
Proof. reflexivity. Qed.

Example blank_zero_width_space : blank (utf8 [226; 128; 139]%nat) = false.
Proof. reflexivity. Qed.

Example blank_accented : blank (" " ++ utf8 [195; 169]%nat) = false.
Proof. reflexivity. Qed.

End WhiteSpace.

(** ** The send operation *)

Section SendExtras.

Variable net : Network.

Lemma send_guard_blank (w : World) :
  blank (inputValue w) = true \/ selectedAgent (agentStore w) = None \/
  currentSession (chat w) = None ->
  handleSendMessage net w = (Normal tt, w).
Proof.
  unfold handleSendMessage. intros [H|[H|H]].
  - rewrite H. reflexivity.
  - rewrite H. destruct (blank (inputValue w)); reflexivity.
  - rewrite H. destruct (blank (inputValue w)); [reflexivity|].
    destruct (selectedAgent (agentStore w)); reflexivity.
Qed.

(** X9.  The guard of the send operation: when the input box holds white
    space only (any sequence of the ECMAScript white space and line
    terminator code points, the empty one included), or no agent is
    selected, or there is no current session, nothing happens at all: no
    message is added, the loading flag and the input box are untouched and
    the clock is not read. *)
Theorem send_guard (w : World) :
  white_only (inputValue w) \/ selectedAgent (agentStore w) = None \/
  currentSession (chat w) = None ->
  handleSendMessage net w = (Normal tt, w).
Proof.
  intros [H|H]; apply send_guard_blank; [left | right; exact H].
  apply blank_white_only. exact H.
Qed.

(** X10.  A send that passes its guard (the input box holds something
    other than white space, an agent is selected and a session is current),
    and during which no other action touches the stores while it awaits the
    network, never throws, whatever the network does and whatever the
    session holds.  It appends exactly two messages to the current session,
    the user's text and then the placeholder, which is still in its loading
    state at the end; it keeps the number of earlier messages, clears the
    input box and leaves the store's loading flag false. *)
Theorem send_outcome (w : World) (agent : Agent) (cur : ChatSession) :
  ~ white_only (inputValue w) ->
  selectedAgent (agentStore w) = Some agent ->
  currentSession (chat w) = Some cur ->
  let w' := exec (handleSendMessage net) w in
  fst (handleSendMessage net w) = Normal tt /\
  exists cur' earlier u p,
    currentSession (chat w') = Some cur' /\
    s_id cur' = s_id cur /\
    s_messages cur' = (earlier ++ [u; p])%list /\
    length earlier = length (s_messages cur) /\
    (ids_from_addMessage cur -> earlier = s_messages cur) /\
    m_role u = user /\ m_content u = JStr (inputValue w) /\
    m_agentId u = Some (a_id agent) /\
    still_loading agent p /\
    isLoading (chat w') = false /\
    inputValue w' = "" /\
    agentStore w' = agentStore w.
Proof.
  intros Hwhite Hagent Hcur w'. unfold exec in w'.
  assert (Hblank : blank (inputValue w) = false).
  { apply not_true_is_false. intros Hb. apply Hwhite, blank_white_only, Hb. }
  remember (handleSendMessage net w) as r eqn:Hr.
  unfold handleSendMessage in Hr. rewrite Hblank, Hagent, Hcur in Hr.
  unfold bindS at 1 in Hr. rewrite (addMessage_run w _ cur Hcur) in Hr.
  unfold bindS at 1 in Hr. cbn [setInputValue] in Hr.
  unfold bindS at 1 in Hr. cbn [setLoading set] in Hr.
  unfold bindS at 1 in Hr. cbn [Date_now] in Hr.
  unfold bindS at 1 in Hr.
  match type of Hr with
  | context [addMessage ?md ?w2] =>
      rewrite (addMessage_run w2 md _ eq_refl) in Hr
  end.
  match type of Hr with
  | context [tryCatchFinally ?b ?h ?f ?w3] =>
      destruct (try_statement_run net agent cur _ (inputValue w)
                  ("msg_loading_" ++ showZ (clock w (S (S (S (elapsed w))))))
                  w3 eq_refl) as [updates Hrun];
      set (W3 := w3) in *
  end.
  cbn [elapsed clock chat with_chat] in Hrun, Hr.
  rewrite Hrun in Hr. unfold exec in Hr.
  rewrite (updateMessage_run W3 _ updates _ eq_refl) in Hr.
  cbn [snd setLoading set chat with_chat currentSession isLoading inputValue] in Hr.
  subst w' r. cbn [fst snd chat currentSession isLoading inputValue agentStore].
  split; [reflexivity|].
  eexists _, _, _, _. split; [reflexivity|].
  split; [reflexivity|].
  split.
  { cbn [updatedWith s_messages]. subst W3.
    cbn [chat currentSession appended s_messages].
    rewrite !map_app. cbn [map].
    assert (Hmiss : forall n, String.eqb ("msg_" ++ showZ n)
                      ("msg_loading_" ++ showZ (clock w (S (S (S (elapsed w))))))
                    = false).
    { intros n. apply String.eqb_neq. intros Heq. symmetry in Heq.
      exact (loading_id_not_assigned _ _ Heq). }
    cbn [newMessageAt m_id clock elapsed]. rewrite !Hmiss.
    rewrite <- app_assoc. reflexivity. }
  split; [apply length_map|].
  split.
  { intros Hids. apply map_unchanged. intros m Hin.
    pose proof (ids_from_addMessage_miss cur
                  (clock w (S (S (S (elapsed w))))) m Hids Hin) as Hne.
    apply String.eqb_neq in Hne. rewrite Hne. reflexivity. }
  cbn. repeat split.
Qed.

End SendExtras.

Lemma send_guard_witness :
  handleSendMessage net_ok idleWorld = (Normal tt, idleWorld) /\
  handleSendMessage net_ok (nbspWorld)
    = (Normal tt, nbspWorld).
Proof.
  split.
  - apply (send_guard net_ok idleWorld). right. right. reflexivity.
  - apply (send_guard net_ok nbspWorld). left.
    exists [utf8 [194; 160]%nat; " "; utf8 [227; 128; 128]%nat].
    split; [|reflexivity].
    constructor;
      [unfold whitespace; simpl; repeat (first [left; reflexivity | right])|].
    constructor;
      [unfold whitespace; simpl; repeat (first [left; reflexivity | right])|].
    constructor;
      [unfold whitespace; simpl; repeat (first [left; reflexivity | right])|].
    constructor.
Defined.

Lemma sample_input_not_white : ~ white_only (inputValue sampleWorld).
Proof.
  intros H. apply blank_white_only in H. discriminate H.
Defined.

Lemma send_outcome_witness :
  fst (handleSendMessage net_down sampleWorld) = Normal tt /\
  exists cur' p,
    currentSession (chat (exec (handleSendMessage net_down) sampleWorld)) = Some cur' /\
    s_messages cur' !! 1%nat = Some p /\
    m_content p = JStr (loadingText orchestrator) /\
    isLoading (chat (exec (handleSendMessage net_down) sampleWorld)) = false.
Proof.
  destruct (send_outcome net_down sampleWorld
              (mkAgent "central-orchestrator" "AI Orchestrator (Multi-Agent)"
                 "Intelligent coordinator that combines insights from multiple specialized agents"
                 [ "Multi-Agent Coordination"; "Collaborative Analysis";
                   "Cross-Domain Insights"; "Complex Query Processing";
                   "Integrated Financial + Sales Intelligence";
                   "Strategic Recommendations"; "Workflow Management" ]
                 online None "http://localhost:8001" orchestrator)
              sampleSession sample_input_not_white eq_refl eq_refl)
    as (Hdone & cur' & earlier & u & p & Hc & _ & Hm & Hlen & _ & _ & _ & _
        & (_ & Hp & _) & Hload & _).
  split; [exact Hdone|].
  exists cur', p. split; [exact Hc|].
  destruct earlier as [|x earlier]; [|discriminate Hlen].
  rewrite Hm. split; [reflexivity|]. split; [exact Hp | exact Hload].
Defined.

(** ** The reply and what is made of it *)

Section ReplyExtras.

Lemma extracted_truthy (t : AgentType) (data v : json) :
  responseContent t data = Normal v -> truthy v = true.
Proof.
  destruct data as [|b|n|s|items|members]; try discriminate;
    try (intros [= <-]; reflexivity).
  rewrite responseContent_object. unfold or_next.
  destruct (assoc (responseField t) members) as [a|].
  - destruct (truthy a) eqn:Ha; [intros [= <-]; exact Ha|].
    destruct (assoc (otherField t) members) as [b|].
    + destruct (truthy b) eqn:Hb; intros [= <-]; [exact Hb | reflexivity].
    + intros [= <-]. reflexivity.
  - destruct (assoc (otherField t) members) as [b|].
    + destruct (truthy b) eqn:Hb; intros [= <-]; [exact Hb | reflexivity].
    + intros [= <-]. reflexivity.
Qed.

(** X11.  The extracted content is never falsy: whatever the reply, when the
    extraction completes its result is a truthy value (never [null], [false],
    [0] or the empty string), the apology standing in for a missing or
    falsy answer. *)
Theorem responseContent_truthy (t : AgentType) (data v : json) :
  responseContent t data = Normal v -> truthy v = true.
Proof. exact (extracted_truthy t data v). Qed.

(** X12.  A reply is read only when the HTTP status is in 200..299: the
    fetch yields data exactly when the network delivered a response with
    such a status and a body that parses; any other status throws
    [API Error: <status>] whatever the body holds. *)
Theorem fetchData_outcomes (net : Network) (agent : Agent) (body data : json) :
  (fetchData net agent body = Normal data <->
   exists status,
     net (a_endpoint agent ++ "/query") body = FetchResponse status (BodyJson data) /\
     200 <= status <= 299) /\
  (forall status b,
     net (a_endpoint agent ++ "/query") body = FetchResponse status b ->
     status < 200 \/ 299 < status ->
     fetchData net agent body = Throw (ErrorObj ("API Error: " ++ showZ status))).
Proof.
  unfold fetchData, response_ok. split; [split|].
  - destruct (net _ body) as [e|status b]; [discriminate|].
    destruct ((200 <=? status) && (status <=? 299)) eqn:Hok; [|discriminate].
    destruct b as [d|e]; [|discriminate]. intros [= <-].
    apply andb_true_iff in Hok as [H1 H2].
    exists status. split; [reflexivity|]. lia.
  - intros (status & Hnet & Hlo & Hhi). rewrite Hnet.
    replace ((200 <=? status) && (status <=? 299)) with true; [reflexivity|].
    symmetry. apply andb_true_iff. split; lia.
  - intros status b Hnet Hout. rewrite Hnet.
    replace ((200 <=? status) && (status <=? 299)) with false; [reflexivity|].
    symmetry. apply andb_false_iff. lia.
Qed.

(** X13.  For an agent that is not the orchestrator the shape of the reply
    never causes an error: any reply other than [null] that arrives with an
    ok status is turned into an update of type [query] whose content is the
    extracted (truthy) content, undecorated, with the loading flag cleared
    and no orchestrator data. *)
Theorem plain_agent_reply (net : Network) (agent : Agent) (cur : ChatSession)
    (originalQuery loadingMessageId : string) (data : json) (w : World) :
  is_orchestrator (a_type agent) = false ->
  fetchData net agent (requestBody (a_type agent) originalQuery (s_id cur))
    = Normal data ->
  data <> JNull ->
  exists content,
    responseContent (a_type agent) data = Normal content /\
    truthy content = true /\
    attempt net agent cur originalQuery loadingMessageId w
      = updateMessage loadingMessageId
          {| u_id := None; u_content := Some content; u_role := None;
             u_timestamp := None; u_agentId := None;
             u_metadata :=
               Some (Some {| md_type := Some "query"; md_loading := Some false;
                             md_error := None; md_orchestratorData := None |}) |} w.
Proof.
  intros Hplain Hfetch Hnull.
  assert (Hc : exists content, responseContent (a_type agent) data = Normal content).
  { destruct data as [|b|n|s|items|members]; try congruence;
      try (eexists; reflexivity).
    rewrite responseContent_object. unfold or_next.
    destruct (assoc _ members) as [a|]; [destruct (truthy a)|];
      try (eexists; reflexivity);
      destruct (assoc _ members) as [b|]; try destruct (truthy b);
      eexists; reflexivity. }
  destruct Hc as [content Hc]. exists content.
  split; [exact Hc|]. split; [exact (extracted_truthy _ _ _ Hc)|].
  unfold attempt, bindS, lift. rewrite Hfetch, Hc.
  unfold enhancedContent, successUpdates. rewrite Hplain. reflexivity.
Qed.

Lemma agentName_string (s : string) :
  exists label, agentName (JStr s) = Normal label.
Proof.
  unfold agentName.
  destruct (String.eqb s "financial_intelligence");
    [|destruct (String.eqb s "sales_marketing")]; eexists; reflexivity.
Qed.

Lemma agentName_strings (names : list string) :
  exists labels,
    mapC agentName (map JStr names) = Normal labels /\
    length labels = length names.
Proof.
  induction names as [|s names (labels & Hl & Hlen)].
  - exists []. split; reflexivity.
  - destruct (agentName_string s) as [label Hs].
    exists (label :: labels). cbn [map mapC]. rewrite Hs. cbn [bindC].
    rewrite Hl. cbn [bindC length]. rewrite Hlen. split; reflexivity.
Qed.

(** X14.  For the orchestrator, a reply that names its query type (a
    non-empty string) and lists the agents involved as strings gets its
    textual content decorated: the shown text starts with the content
    itself, followed by a rule, the query type and one label per listed
    agent, in the order listed. *)
Theorem orchestrator_decoration (members : list (string * json))
    (content kind : string) (names : list string) :
  assoc "query_type" members = Some (JStr kind) -> kind <> "" ->
  assoc "agents_involved" members = Some (JArr (map JStr names)) ->
  exists labels,
    mapC agentName (map JStr names) = Normal labels /\
    length labels = length names /\
    enhancedContent orchestrator (JObj members) (JStr content)
      = Normal (JStr (content ++ nl ++ nl ++ "---" ++ nl ++
                      "📊 **Query Type**: " ++ kind ++ nl ++
                      "🤖 **Agents Consulted**: " ++ join ", " labels)).
Proof.
  intros Hkind Hne Hagents.
  destruct (agentName_strings names) as (labels & Hl & Hlen).
  exists labels. split; [exact Hl|]. split; [exact Hlen|].
  unfold enhancedContent. simpl is_orchestrator. cbn [getProp bindC].
  rewrite Hkind. cbn [truthy_opt truthy].
  apply String.eqb_neq in Hne. rewrite Hne. cbn [negb].
  rewrite Hagents. cbn [truthy_opt truthy]. rewrite Hl. reflexivity.
Qed.

(** X15.  For the orchestrator, a reply with a truthy query type whose
    [agents_involved] is truthy but not an array (a string, a number, an
    object) makes the decoration throw, although the answer was extracted:
    the send then takes its error path. *)
Theorem orchestrator_bad_agents_list (members : list (string * json))
    (content kind involved : json) :
  assoc "query_type" members = Some kind -> truthy kind = true ->
  assoc "agents_involved" members = Some involved -> truthy involved = true ->
  (forall items, involved <> JArr items) ->
  enhancedContent orchestrator (JObj members) content
    = Throw (ErrorObj "data.agents_involved.map is not a function").
Proof.
  intros Hkind Hk Hinv Hi Hnot.
  unfold enhancedContent. simpl is_orchestrator. cbn [getProp bindC].
  rewrite Hkind. cbn [truthy_opt]. rewrite Hk. rewrite Hinv.
  cbn [truthy_opt]. rewrite Hi.
  destruct involved; try reflexivity. exfalso. exact (Hnot items eq_refl).
Qed.

Lemma replace_first_no_char (from to : ascii) (s : string) :
  has_char from s = false -> replace_first from to s = s.
Proof.
  induction s as [|c s IH]; simpl; [reflexivity|].
  destruct (Ascii.eqb c from); simpl; [discriminate|].
  intros H. rewrite IH by exact H. reflexivity.
Qed.

Lemma replace_first_split (from to : ascii) (s1 s2 : string) :
  has_char from s1 = false ->
  replace_first from to (s1 ++ String from s2) = s1 ++ String to s2.
Proof.
  induction s1 as [|c s1 IH]; simpl.
  - intros _. rewrite Ascii.eqb_refl. reflexivity.
  - destruct (Ascii.eqb c from); simpl; [discriminate|].
    intros H. rewrite IH by exact H. reflexivity.
Qed.

(** X16.  The label of an agent id other than the two known ones is the id
    with its FIRST underscore turned into a space: what follows that
    underscore is kept as it is, further underscores included; an id
    without underscore is its own label. *)
Theorem agentName_first_underscore (s1 s2 : string) :
  has_char "_" s1 = false ->
  (s1 ++ String "_" s2 <> "financial_intelligence" ->
   s1 ++ String "_" s2 <> "sales_marketing" ->
   agentName (JStr (s1 ++ String "_" s2)) = Normal (s1 ++ String " " s2)) /\
  agentName (JStr s1) = Normal s1.
Proof.
  intros Hno. split.
  - intros H1 H2. unfold agentName.
    apply String.eqb_neq in H1, H2. rewrite H1, H2.
    rewrite replace_first_split by exact Hno. reflexivity.
  - unfold agentName.
    destruct (String.eqb s1 "financial_intelligence") eqn:H1.
    { apply String.eqb_eq in H1. subst. discriminate Hno. }
    destruct (String.eqb s1 "sales_marketing") eqn:H2.
    { apply String.eqb_eq in H2. subst. discriminate Hno. }
    rewrite replace_first_no_char by exact Hno. reflexivity.
Qed.

End ReplyExtras.

Lemma responseContent_truthy_witness :
  truthy (JStr apology) = true.
Proof.
  apply (responseContent_truthy financial (JObj [("response", JStr "")]) (JStr apology)).
  reflexivity.
Defined.

Lemma fetchData_outcomes_witness :
  fetchData net_ok
    (mkAgent "a" "" "" [] online None "http://localhost:8003" sales_marketing)
    (JObj []) = Normal okReply /\
  fetchData net_500
    (mkAgent "a" "" "" [] online None "http://localhost:8003" sales_marketing)
    (JObj []) = Throw (ErrorObj "API Error: 500").
Proof.
  split.
  - apply (fetchData_outcomes net_ok
             (mkAgent "a" "" "" [] online None "http://localhost:8003" sales_marketing)
             (JObj []) okReply).
    exists 200. split; [reflexivity | lia].
  - apply (proj2 (fetchData_outcomes net_500
             (mkAgent "a" "" "" [] online None "http://localhost:8003" sales_marketing)
             (JObj []) JNull) 500 (BodyJson (JObj [ ("detail", JStr "Internal Server Error") ]))).
    + reflexivity.
    + right. lia.
Defined.

Lemma plain_agent_reply_witness :
  exists content,
    responseContent sales_marketing okReply = Normal content /\
    truthy content = true.
Proof.
  destruct (plain_agent_reply net_ok
              (mkAgent "sales-marketing" "" "" [] online None "http://localhost:8003"
                       sales_marketing)
              sampleSession "Show P&L" "msg_loading_1700000000000" okReply sampleWorld
              eq_refl eq_refl) as (content & Hc & Ht & _).
  - discriminate.
  - exists content. split; assumption.
Defined.

Lemma orchestrator_decoration_witness :
  exists labels,
    mapC agentName (map JStr ["financial_intelligence"; "sales_marketing"])
      = Normal labels /\
    length labels = 2%nat.
Proof.
  destruct (orchestrator_decoration
              [ ("answer", JStr "Revenue is up."); ("query_type", JStr "collaborative");
                ("agents_involved",
                 JArr (map JStr ["financial_intelligence"; "sales_marketing"])) ]
              "Revenue is up." "collaborative"
              ["financial_intelligence"; "sales_marketing"] eq_refl)
    as (labels & Hl & Hlen & _).
  - discriminate.
  - reflexivity.
  - exists labels. split; assumption.
Defined.

Lemma orchestrator_bad_agents_list_witness :
  enhancedContent orchestrator
    (JObj [ ("answer", JStr "Revenue is up."); ("query_type", JStr "single_agent");
            ("agents_involved", JStr "sales_marketing") ])
    (JStr "Revenue is up.")
  = Throw (ErrorObj "data.agents_involved.map is not a function").
Proof.
  apply (orchestrator_bad_agents_list
           [ ("answer", JStr "Revenue is up."); ("query_type", JStr "single_agent");
             ("agents_involved", JStr "sales_marketing") ]
           (JStr "Revenue is up.") (JStr "single_agent") (JStr "sales_marketing"));
    try reflexivity.
  intros items. discriminate.
Defined.

Lemma agentName_first_underscore_witness :
  agentName (JStr "customer_success_team") = Normal "customer success_team".
Proof.
  destruct (agentName_first_underscore "customer" "success_team" eq_refl) as [H _].
  apply H; discriminate.
Defined.

(** ** The agent store *)

Section AgentExtras.

Lemma find_agent_some (agentId : string) (l : list Agent) (a : Agent) :
  In a l -> a_id a = agentId ->
  exists sel, List.find (fun x => String.eqb (a_id x) agentId) l = Some sel /\
              a_id sel = agentId /\ In sel l.
Proof.
  intros Hin Hid.
  destruct (List.find (fun x => String.eqb (a_id x) agentId) l) as [sel|] eqn:Hf.
  - apply find_some in Hf as [Hs He]. apply String.eqb_eq in He. eauto.
  - pose proof (find_none _ _ Hf a Hin) as Hn. simpl in Hn.
    apply String.eqb_neq in Hn. contradiction.
Qed.

Lemma find_agent_none (agentId : string) (l : list Agent) :
  (forall a, In a l -> a_id a <> agentId) ->
  List.find (fun x => String.eqb (a_id x) agentId) l = None.
Proof.
  intros Hnone.
  destruct (List.find (fun x => String.eqb (a_id x) agentId) l) as [sel|] eqn:Hf;
    [|reflexivity].
  apply find_some in Hf as [Hs He]. apply String.eqb_eq in He.
  exfalso. exact (Hnone sel Hs He).
Qed.

(** X17.  Selecting an agent by id: an id no agent has changes nothing; an
    id some agent has selects a listed agent with that id.  Selecting, and
    updating a status, keep the selected agent an entry of the list. *)
Theorem selectAgent_lookup (agentId : string) (status : AgentStatus)
    (state : AgentStore) :
  ((forall a, In a (agents state) -> a_id a <> agentId) ->
   selectAgent agentId state = state) /\
  (forall a, In a (agents state) -> a_id a = agentId ->
     exists sel, selectedAgent (selectAgent agentId state) = Some sel /\
                 a_id sel = agentId /\ In sel (agents state)) /\
  agents (selectAgent agentId state) = agents state /\
  (selected_listed state -> selected_listed (selectAgent agentId state)) /\
  (selected_listed state -> selected_listed (updateAgentStatus agentId status state)).
Proof.
  split; [|split; [|split; [|split]]].
  - intros Hnone. unfold selectAgent. rewrite find_agent_none by exact Hnone.
    reflexivity.
  - intros a Hin Hid. unfold selectAgent.
    destruct (find_agent_some agentId _ a Hin Hid) as (sel & Hf & Hs & Hl).
    rewrite Hf. exists sel. repeat split; assumption.
  - unfold selectAgent. destruct (List.find _ (agents state)); reflexivity.
  - intros Hinv. unfold selectAgent, selected_listed in *.
    destruct (List.find _ (agents state)) as [sel|] eqn:Hf; [|exact Hinv].
    simpl. apply find_some in Hf as [Hs _]. exact Hs.
  - unfold selected_listed, updateAgentStatus. simpl.
    destruct (selectedAgent state) as [sel|]; [|auto].
    intros Hin.
    apply (in_map (fun agent => if String.eqb (a_id agent) agentId
                                then with_status agent status else agent)) in Hin.
    destruct (String.eqb (a_id sel) agentId); exact Hin.
Qed.

(** X18.  Status updates compose as writes to a cell per agent id: a second
    update of the same id overrides the first (so repeating an update
    changes nothing), and updates of different ids commute. *)
Theorem updateAgentStatus_algebra (id1 id2 : string) (s1 s2 : AgentStatus)
    (state : AgentStore) :
  updateAgentStatus id1 s2 (updateAgentStatus id1 s1 state)
    = updateAgentStatus id1 s2 state /\
  (id1 <> id2 ->
   updateAgentStatus id1 s1 (updateAgentStatus id2 s2 state)
     = updateAgentStatus id2 s2 (updateAgentStatus id1 s1 state)).
Proof.
  unfold updateAgentStatus. simpl. split.
  - f_equal.
    + rewrite map_map. apply map_ext. intros a.
      destruct (String.eqb (a_id a) id1) eqn:Ha; simpl; rewrite Ha; reflexivity.
    + destruct (selectedAgent state) as [sel|]; [|reflexivity].
      destruct (String.eqb (a_id sel) id1) eqn:Ha; simpl; rewrite Ha; reflexivity.
  - intros Hne. f_equal.
    + rewrite !map_map. apply map_ext. intros a.
      destruct (String.eqb (a_id a) id1) eqn:Ha,
               (String.eqb (a_id a) id2) eqn:Hb; simpl; rewrite ?Ha, ?Hb;
        try reflexivity.
      apply String.eqb_eq in Ha, Hb. congruence.
    + destruct (selectedAgent state) as [sel|]; [|reflexivity].
      destruct (String.eqb (a_id sel) id1) eqn:Ha,
               (String.eqb (a_id sel) id2) eqn:Hb; simpl; rewrite ?Ha, ?Hb;
        try reflexivity.
      apply String.eqb_eq in Ha, Hb. congruence.
Qed.

End AgentExtras.

(** ** The components *)

Section ComponentExtras.

Lemma with_agentStore_same (w : World) : with_agentStore w (agentStore w) = w.
Proof. destruct w. reflexivity. Qed.

(** X19.  Choosing an agent in the selector: an id no agent has leaves
    everything as it was; an id some agent has makes an agent with that id
    the selected one and makes sure the current session belongs to that
    agent, opening a new empty session (placed first in the list) unless the
    current session already was for that agent, in which case the sessions
    are untouched. *)
Theorem handleSelectAgent_outcome (agentId : string) (w : World) :
  let w' := exec (handleSelectAgent agentId) w in
  ((forall a, In a (agents (agentStore w)) -> a_id a <> agentId) -> w' = w) /\
  (forall a, In a (agents (agentStore w)) -> a_id a = agentId ->
     exists sel cur,
       selectedAgent (agentStore w') = Some sel /\ a_id sel = agentId /\
       currentSession (chat w') = Some cur /\ s_agentId cur = agentId /\
       ((currentSession (chat w) = Some cur /\ chat w' = chat w) \/
        (s_messages cur = [] /\ sessions (chat w') = cur :: sessions (chat w) /\
         forall old, currentSession (chat w) = Some old -> s_agentId old <> agentId))).
Proof.
  unfold exec, handleSelectAgent, bindS, setAgent. cbn [snd]. split.
  - intros Hnone. unfold selectAgent.
    rewrite (find_agent_none agentId _ Hnone). simpl.
    apply with_agentStore_same.
  - intros a Hin Hid.
    destruct (find_agent_some agentId _ a Hin Hid) as (sel & Hf & Hs & Hl).
    unfold selectAgent. rewrite Hf.
    destruct (currentSession (chat w)) as [old|] eqn:Hcur.
    + destruct (String.eqb (s_agentId old) agentId) eqn:Hold; simpl.
      * exists sel, old. apply String.eqb_eq in Hold.
        repeat split; auto.
      * eexists sel, _. split; [reflexivity|]. split; [exact Hs|].
        split; [reflexivity|]. split; [reflexivity|]. right.
        split; [reflexivity|]. split; [reflexivity|].
        intros old' [= <-]. apply String.eqb_neq. exact Hold.
    + simpl. eexists sel, _. split; [reflexivity|]. split; [exact Hs|].
      split; [reflexivity|]. split; [reflexivity|]. right.
      split; [reflexivity|]. split; [reflexivity|]. intros old' [=].
Qed.

Lemma handleSelectAgent_missing (agentId : string) (w : World) :
  List.find (fun a => String.eqb (a_id a) agentId) (agents (agentStore w)) = None ->
  handleSelectAgent agentId w = (Normal tt, w).
Proof.
  intros Hf. unfold handleSelectAgent, bindS, setAgent, selectAgent.
  rewrite Hf. simpl. rewrite with_agentStore_same. reflexivity.
Qed.

Lemma handleSelectAgent_keep (agentId : string) (w : World) (sel : Agent)
    (old : ChatSession) :
  List.find (fun a => String.eqb (a_id a) agentId) (agents (agentStore w)) = Some sel ->
  currentSession (chat w) = Some old -> s_agentId old = agentId ->
  handleSelectAgent agentId w =
    (Normal tt,
     with_agentStore w {| agents := agents (agentStore w); selectedAgent := Some sel |}).
Proof.
  intros Hf Hcur Hold. unfold handleSelectAgent, bindS, setAgent, selectAgent.
  rewrite Hf, Hcur. apply String.eqb_eq in Hold. rewrite Hold. reflexivity.
Qed.

Lemma handleSelectAgent_open (agentId : string) (w : World) (sel : Agent) :
  List.find (fun a => String.eqb (a_id a) agentId) (agents (agentStore w)) = Some sel ->
  (forall old, currentSession (chat w) = Some old -> s_agentId old <> agentId) ->
  handleSelectAgent agentId w =
    createSession agentId
      (with_agentStore w {| agents := agents (agentStore w); selectedAgent := Some sel |}).
Proof.
  intros Hf Hold. unfold handleSelectAgent, bindS, setAgent, selectAgent.
  rewrite Hf. destruct (currentSession (chat w)) as [old|]; [|reflexivity].
  specialize (Hold old eq_refl). apply String.eqb_neq in Hold. rewrite Hold.
  reflexivity.
Qed.

(** X20.  Choosing the same agent twice in a row is choosing it once: the
    second choice opens no further session and changes nothing. *)
Theorem handleSelectAgent_idempotent (agentId : string) (w : World) :
  exec (handleSelectAgent agentId) (exec (handleSelectAgent agentId) w)
    = exec (handleSelectAgent agentId) w.
Proof.
  unfold exec.
  destruct (List.find (fun a => String.eqb (a_id a) agentId) (agents (agentStore w)))
    as [sel|] eqn:Hf.
  - destruct (currentSession (chat w)) as [old|] eqn:Hcur.
    + destruct (string_dec (s_agentId old) agentId) as [Hold|Hold].
      * rewrite (handleSelectAgent_keep agentId w sel old Hf Hcur Hold). cbn [snd].
        match goal with
        | |- snd (handleSelectAgent agentId ?w1) = _ =>
            rewrite (handleSelectAgent_keep agentId w1 sel old Hf Hcur Hold)
        end.
        reflexivity.
      * rewrite (handleSelectAgent_open agentId w sel Hf).
        2:{ intros old' Ho. rewrite Hcur in Ho. injection Ho as <-. exact Hold. }
        rewrite createSession_run. cbn [snd].
        match goal with
        | |- snd (handleSelectAgent agentId ?w1) = _ =>
            rewrite (handleSelectAgent_keep agentId w1 sel _ Hf eq_refl eq_refl)
        end.
        reflexivity.
    + rewrite (handleSelectAgent_open agentId w sel Hf).
      2:{ intros old' Ho. rewrite Hcur in Ho. discriminate. }
      rewrite createSession_run. cbn [snd].
      match goal with
      | |- snd (handleSelectAgent agentId ?w1) = _ =>
          rewrite (handleSelectAgent_keep agentId w1 sel _ Hf eq_refl eq_refl)
      end.
      reflexivity.
  - rewrite (handleSelectAgent_missing agentId w Hf). cbn [snd].
    rewrite (handleSelectAgent_missing agentId w Hf). reflexivity.
Qed.

(** X21.  The page's initial-session effect: when the user is signed in and
    an agent is selected, a current session exists afterwards; an existing
    current session is never replaced; running the effect again changes
    nothing. *)
Theorem ensureSession_outcome (signedIn : bool) (w : World) :
  let w' := exec (ensureSession signedIn) w in
  (signedIn = true ->
   forall agent, selectedAgent (agentStore w) = Some agent ->
     exists cur, currentSession (chat w') = Some cur /\
                 (currentSession (chat w) = None -> s_agentId cur = a_id agent /\
                                                   s_messages cur = [])) /\
  (forall cur, currentSession (chat w) = Some cur -> w' = w) /\
  exec (ensureSession signedIn) w' = w'.
Proof.
  unfold exec, ensureSession. split; [|split].
  - intros -> agent Hsel. rewrite Hsel.
    destruct (currentSession (chat w)) as [cur|] eqn:Hcur; simpl.
    + exists cur. split; [exact Hcur | discriminate].
    + eexists. split; [reflexivity|]. intros _. split; reflexivity.
  - intros cur Hcur. rewrite Hcur.
    destruct signedIn; [|reflexivity].
    destruct (selectedAgent (agentStore w)); reflexivity.
  - destruct signedIn; [|reflexivity].
    destruct (selectedAgent (agentStore w)) as [agent|] eqn:Hsel; simpl.
    + destruct (currentSession (chat w)) as [cur|] eqn:Hcur; simpl.
      * rewrite Hsel, Hcur. reflexivity.
      * rewrite Hsel. reflexivity.
    + rewrite Hsel. reflexivity.
Qed.

(** X22.  An agent card shows at most four capability badges: the first
    three capabilities as they are and, only when there are more, one badge
    counting the rest, so that three plus that count is the number of
    capabilities. *)
Theorem capabilityBadges_account (capabilities : list string) :
  length (capabilityBadges capabilities) = Nat.min (length capabilities) 4 /\
  firstn 3 (capabilityBadges capabilities) = firstn 3 capabilities /\
  ((length capabilities <= 3)%nat -> capabilityBadges capabilities = capabilities) /\
  ((3 < length capabilities)%nat ->
   exists hidden : nat,
     capabilityBadges capabilities !! 3%nat
       = Some ("+" ++ showZ (Z.of_nat hidden) ++ " more") /\
     (3 + hidden)%nat = length capabilities).
Proof.
  unfold capabilityBadges.
  destruct (Nat.ltb 3 (length capabilities)) eqn:Hlt.
  - apply Nat.ltb_lt in Hlt.
    assert (Hf : length (firstn 3 capabilities) = 3%nat)
      by (rewrite length_firstn; lia).
    split; [rewrite length_app, Hf; simpl; lia|].
    split; [rewrite firstn_app, Hf; simpl; rewrite app_nil_r;
            apply firstn_firstn|].
    split; [lia|]. intros _.
    exists (length capabilities - 3)%nat. split; [|lia].
    rewrite lookup_app_r by lia. rewrite Hf. simpl. unfold moreBadge.
    replace (Z.of_nat (length capabilities - 3)) with (Z.of_nat (length capabilities) - 3)
      by lia.
    reflexivity.
  - apply Nat.ltb_ge in Hlt. rewrite app_nil_r.
    split; [rewrite length_firstn; lia|].
    split; [apply firstn_firstn|].
    split; [intros _; apply firstn_all2; lia | lia].
Qed.

End ComponentExtras.

(** ** The settings store *)

Section SettingsExtras.


End SettingsExtras.

(** ** Persistence and the store actions *)

Section PersistExtras.

Lemma filter_json_session (sessionId : string) (l : list ChatSession) :
  map json_session (List.filter (fun s => negb (String.eqb (s_id s) sessionId)) l)
  = List.filter (fun s => negb (String.eqb (s_id s) sessionId)) (map json_session l).
Proof.
  induction l as [|x l IH]; simpl; [reflexivity|].
  destruct (String.eqb (s_id x) sessionId); simpl; rewrite IH; reflexivity.
Qed.

(** X24.  A restart does not disturb the bookkeeping by id: the reloaded
    store still has its current session as the first list entry with its
    id, and deleting a session before the restart or after it gives the
    same store. *)
Theorem reload_respects_ids (sessionId : string) (w : World) :
  (current_first_listed (chat w) -> current_first_listed (reload (chat w))) /\
  reload (chat (exec (deleteSession sessionId) w))
    = chat (exec (deleteSession sessionId) (with_chat w (reload (chat w)))).
Proof.
  split.
  - unfold current_first_listed, reload, rehydrate, stored, partialize. simpl.
    destruct (currentSession (chat w)) as [cur|]; simpl; [|auto].
    intros Hf.
    change (s_id (json_session cur)) with (s_id cur).
    rewrite find_json_session, Hf. reflexivity.
  - unfold exec, deleteSession, set, with_chat, reload, rehydrate, stored, partialize.
    simpl. f_equal.
    + destruct (currentSession (chat w)) as [cur|]; simpl; [|reflexivity].
      destruct (String.eqb (s_id cur) sessionId); reflexivity.
    + apply filter_json_session.
Qed.

End PersistExtras.

Lemma selectAgent_lookup_witness :
  selectAgent "no-such-agent" (initialAgentStore sampleEnv) = initialAgentStore sampleEnv /\
  exists sel, selectedAgent (selectAgent "sales-marketing" (initialAgentStore sampleEnv))
                = Some sel /\ a_id sel = "sales-marketing".
Proof.
  destruct (selectAgent_lookup "no-such-agent" busy (initialAgentStore sampleEnv))
    as (Hmiss & _).
  destruct (selectAgent_lookup "sales-marketing" busy (initialAgentStore sampleEnv))
    as (_ & Hhit & _).
  split.
  - apply Hmiss. intros a Hin.
    repeat (destruct Hin as [<-|Hin]; [discriminate|]). destruct Hin.
  - destruct (Hhit (nth 2 (defaultAgents sampleEnv)
                        (mkAgent "" "" "" [] offline None "" general)))
      as (sel & Hs & Hid & _).
    + right. right. left. reflexivity.
    + reflexivity.
    + exists sel. split; assumption.
Defined.

Lemma updateAgentStatus_algebra_witness :
  updateAgentStatus "sales-marketing" busy
    (updateAgentStatus "research-specialist" online (initialAgentStore sampleEnv))
  = updateAgentStatus "research-specialist" online
      (updateAgentStatus "sales-marketing" busy (initialAgentStore sampleEnv)).
Proof.
  apply (updateAgentStatus_algebra "sales-marketing" "research-specialist" busy online
           (initialAgentStore sampleEnv)).
  discriminate.
Defined.

Lemma handleSelectAgent_outcome_witness :
  exec (handleSelectAgent "no-such-agent") sampleWorld = sampleWorld /\
  exists sel cur,
    selectedAgent (agentStore (exec (handleSelectAgent "sales-marketing") sampleWorld))
      = Some sel /\ a_id sel = "sales-marketing" /\
    currentSession (chat (exec (handleSelectAgent "sales-marketing") sampleWorld))
      = Some cur /\ s_agentId cur = "sales-marketing".
Proof.
  destruct (handleSelectAgent_outcome "no-such-agent" sampleWorld) as (Hmiss & _).
  destruct (handleSelectAgent_outcome "sales-marketing" sampleWorld) as (_ & Hhit).
  split.
  - apply Hmiss. intros a Hin.
    repeat (destruct Hin as [<-|Hin]; [discriminate|]). destruct Hin.
  - destruct (Hhit (nth 2 (defaultAgents sampleEnv)
                        (mkAgent "" "" "" [] offline None "" general)))
      as (sel & cur & Hs & Hid & Hc & Ha & _).
    + right. right. left. reflexivity.
    + reflexivity.
    + exists sel, cur. repeat split; assumption.
Defined.

Lemma ensureSession_outcome_witness :
  (exists cur, currentSession (chat (exec (ensureSession true) idleWorld)) = Some cur /\
               s_agentId cur = "central-orchestrator") /\
  exec (ensureSession true) sampleWorld = sampleWorld.
Proof.
  destruct (ensureSession_outcome true idleWorld) as (Hmake & _).
  destruct (ensureSession_outcome true sampleWorld) as (_ & Hkeep & _).
  split.
  - destruct (Hmake eq_refl _ eq_refl) as (cur & Hc & Hnew).
    exists cur. split; [exact Hc|]. destruct (Hnew eq_refl) as [Ha _]. exact Ha.
  - apply (Hkeep sampleSession). reflexivity.
Defined.

Lemma capabilityBadges_account_witness :
  capabilityBadges ["Lead Management"; "Sales Pipeline Analysis"]
    = ["Lead Management"; "Sales Pipeline Analysis"] /\
  exists hidden : nat,
    capabilityBadges
      [ "Financial Analysis"; "P&L Statement Generation"; "Business Intelligence";
        "Market Research"; "Risk Assessment" ] !! 3%nat
      = Some ("+" ++ showZ (Z.of_nat hidden) ++ " more") /\
    (3 + hidden)%nat = 5%nat.
Proof.
  split.
  - destruct (capabilityBadges_account ["Lead Management"; "Sales Pipeline Analysis"])
      as (_ & _ & H & _).
    apply H. simpl. lia.
  - destruct (capabilityBadges_account
                [ "Financial Analysis"; "P&L Statement Generation";
                  "Business Intelligence"; "Market Research"; "Risk Assessment" ])
      as (_ & _ & _ & H).
    apply H. simpl. lia.
Defined.


Lemma reload_respects_ids_witness :
  current_first_listed (reload (chat (with_chat sampleWorld sampleStore))).
Proof.
  destruct (reload_respects_ids "session_42" (with_chat sampleWorld sampleStore))
    as (H & _).
  apply H. reflexivity.
Defined.
